(** * Financial Document Analysis API: job orchestration

    A shallow embedding of the asynchronous job handling of the
    repository: the SQLAlchemy models ([models.py]), the Celery worker task
    ([celery_app.py]), the submission and listing endpoints ([main.py]) and
    the retention sweep ([manage_db.py]).

    Conventions of the embedding.
    - A table is a finite map from the primary key [id] to the remaining
      columns of the row.
    - A [datetime] is the integer count of microseconds since the epoch;
      a [Float] column holds a rational, so [total_seconds()] is exact.
    - The code runs in a monad [M] threading a [World] (database, files,
      counters and a chronological [trace] of the externally visible
      steps) and ending normally, with a Python exception, or with the
      worker process terminated.
    - Everything the code obtains from outside (clock, uuid generator,
      analysis engine, message broker) is read from an [Env].
    - The database is available; an INSERT on a primary key already in
      the table is refused. The message id of a delivery is the id of the
      job's own message, so the unique constraint on [celery_task_id]
      cannot be violated and is left out. *)

From stdpp Require Import gmap strings list fin_maps sorting.
From Stdlib Require Import ZArith QArith Lia.

Local Close Scope Q_scope.
Local Open Scope string_scope.
Local Open Scope list_scope.

(** ** models.py *)

Module AnalysisTask.
Record t := mk {
  file_name : string;
  file_path : option string;
  query : string;
  status : string;                     (* pending, processing, completed, failed *)
  analysis_result : option string;     (* the JSON object {"analysis": s}, as s *)
  error_message : option string;
  created_at : Z;
  started_at : option Z;
  completed_at : option Z;
  duration_seconds : option Q;
  celery_task_id : option string
}.

Definition set_status (s : string) (r : t) : t :=
  mk (file_name r) (file_path r) (query r) s (analysis_result r)
     (error_message r) (created_at r) (started_at r) (completed_at r)
     (duration_seconds r) (celery_task_id r).
Definition set_analysis_result (a : option string) (r : t) : t :=
  mk (file_name r) (file_path r) (query r) (status r) a
     (error_message r) (created_at r) (started_at r) (completed_at r)
     (duration_seconds r) (celery_task_id r).
Definition set_error_message (e : option string) (r : t) : t :=
  mk (file_name r) (file_path r) (query r) (status r) (analysis_result r)
     e (created_at r) (started_at r) (completed_at r)
     (duration_seconds r) (celery_task_id r).
Definition set_started_at (d : option Z) (r : t) : t :=
  mk (file_name r) (file_path r) (query r) (status r) (analysis_result r)
     (error_message r) (created_at r) d (completed_at r)
     (duration_seconds r) (celery_task_id r).
Definition set_completed_at (d : option Z) (r : t) : t :=
  mk (file_name r) (file_path r) (query r) (status r) (analysis_result r)
     (error_message r) (created_at r) (started_at r) d
     (duration_seconds r) (celery_task_id r).
Definition set_duration_seconds (d : option Q) (r : t) : t :=
  mk (file_name r) (file_path r) (query r) (status r) (analysis_result r)
     (error_message r) (created_at r) (started_at r) (completed_at r)
     d (celery_task_id r).
Definition set_celery_task_id (c : option string) (r : t) : t :=
  mk (file_name r) (file_path r) (query r) (status r) (analysis_result r)
     (error_message r) (created_at r) (started_at r) (completed_at r)
     (duration_seconds r) c.
End AnalysisTask.

Module UserAnalysisHistory.
Record t := mk {
  user_id : option string;
  analysis_task_id : string;
  document_name : string;
  document_type : option string;
  document_size : option Z;
  analysis_type : string;
  key_findings : option string;
  created_at : Z
}.
End UserAnalysisHistory.

Module AnalysisMetrics.
Record t := mk {
  analysis_task_id : string;
  processing_time_ms : option Q;
  document_pages : option Z;
  tokens_used : option Z;
  model_used : option string;
  estimated_cost_usd : option Q;
  created_at : Z
}.
End AnalysisMetrics.

(** ** Exceptions, outcomes and the world *)

(** A Python exception: an [Exception] with its [str(e)] and the text
    [traceback.format_exc()] gives for it, or FastAPI's [HTTPException]. *)
Inductive Exn :=
| PyError (msg : string) (tb : string)
| HTTPException (status_code : Z) (detail : string).

Definition str (e : Exn) : string :=
  match e with
  | PyError msg _ => msg
  | HTTPException _ detail => detail
  end.

Definition format_exc (e : Exn) : string :=
  match e with
  | PyError _ tb => tb
  | HTTPException _ _ => ""
  end.

(** How a piece of code ends. [Terminated]: the process running it was
    killed; no handler and no [finally] block runs afterwards. *)
Inductive Outcome (A : Type) :=
| Normal (a : A)
| Raised (e : Exn)
| Terminated.
Arguments Normal {A} a.
Arguments Raised {A} e.
Arguments Terminated {A}.

(** What one call of [run_crew] does, as its caller sees it. A soft time
    limit reaches the task as an exception raised inside the call, so it is
    a case of [Raises]; [Overruns] is a call still running when the hard
    time limit expires, at which point the worker process is terminated. *)
Inductive EngineOutcome :=
| Returns (result : string)      (* str(result) *)
| Raises (e : Exn)
| Overruns.

Inductive Table := TasksT | HistoryT | MetricsT.

#[global] Instance Table_eq_dec : EqDecision Table.
Proof. solve_decision. Defined.

(** The externally visible steps, in the order they happen. *)
Inductive Event :=
| EvCommit (task_id : string) (row : AnalysisTask.t)   (* db.commit() of a task row *)
| EvProgress (current : Z) (msg : string)              (* self.update_state *)
| EvRunCrew (query file_path : string)                 (* run_crew called *)
| EvEnqueue (task_id query file_path : string)         (* .delay(...) accepted *)
| EvRemove (path : string)                             (* os.remove succeeded *)
| EvDelete (tbl : Table) (id : string).                (* db.delete(row) *)

Record Env := mkEnv {
  utcnow_at : nat → Z;        (* the k-th reading of datetime.utcnow() *)
  uuid4_at : nat → string;    (* the k-th str(uuid.uuid4()) *)
  run_crew_at : nat → string → string → EngineOutcome;
                              (* the k-th call run_crew(query, file_path) *)
  delay_at : nat → Exn + string;
                              (* the k-th .delay(): broker error or message id *)
  sqlite : bool               (* "sqlite" in DB_URL, the default *)
}.

Record World := mkWorld {
  tasks : gmap string AnalysisTask.t;            (* analysis_tasks *)
  history : gmap string UserAnalysisHistory.t;   (* user_analysis_history *)
  metrics : gmap string AnalysisMetrics.t;       (* analysis_metrics *)
  files : gmap string string;                    (* path to content *)
  undeletable : gset string;                     (* paths os.remove fails on *)
  task_record : option (string * AnalysisTask.t);(* the session's task object *)
  deleted : list (Table * string);               (* rows marked by db.delete *)
  clock_reads : nat;
  uuid_draws : nat;
  engine_runs : nat;
  enqueues : nat;
  trace : list Event
}.

(** Field updates. *)
Definition set_tasks (x : gmap string AnalysisTask.t) (w : World) : World :=
  let '(mkWorld ts hs ms fs un tr dl cr ud er eq tc) := w in
  mkWorld x hs ms fs un tr dl cr ud er eq tc.
Definition set_history (x : gmap string UserAnalysisHistory.t) (w : World) : World :=
  let '(mkWorld ts hs ms fs un tr dl cr ud er eq tc) := w in
  mkWorld ts x ms fs un tr dl cr ud er eq tc.
Definition set_metrics (x : gmap string AnalysisMetrics.t) (w : World) : World :=
  let '(mkWorld ts hs ms fs un tr dl cr ud er eq tc) := w in
  mkWorld ts hs x fs un tr dl cr ud er eq tc.
Definition set_files (x : gmap string string) (w : World) : World :=
  let '(mkWorld ts hs ms fs un tr dl cr ud er eq tc) := w in
  mkWorld ts hs ms x un tr dl cr ud er eq tc.
Definition set_task_record (x : option (string * AnalysisTask.t)) (w : World) : World :=
  let '(mkWorld ts hs ms fs un tr dl cr ud er eq tc) := w in
  mkWorld ts hs ms fs un x dl cr ud er eq tc.
Definition set_deleted (x : list (Table * string)) (w : World) : World :=
  let '(mkWorld ts hs ms fs un tr dl cr ud er eq tc) := w in
  mkWorld ts hs ms fs un tr x cr ud er eq tc.
Definition set_clock_reads (x : nat) (w : World) : World :=
  let '(mkWorld ts hs ms fs un tr dl cr ud er eq tc) := w in
  mkWorld ts hs ms fs un tr dl x ud er eq tc.
Definition set_uuid_draws (x : nat) (w : World) : World :=
  let '(mkWorld ts hs ms fs un tr dl cr ud er eq tc) := w in
  mkWorld ts hs ms fs un tr dl cr x er eq tc.
Definition set_engine_runs (x : nat) (w : World) : World :=
  let '(mkWorld ts hs ms fs un tr dl cr ud er eq tc) := w in
  mkWorld ts hs ms fs un tr dl cr ud x eq tc.
Definition set_enqueues (x : nat) (w : World) : World :=
  let '(mkWorld ts hs ms fs un tr dl cr ud er eq tc) := w in
  mkWorld ts hs ms fs un tr dl cr ud er x tc.
Definition log (e : Event) (w : World) : World :=
  let '(mkWorld ts hs ms fs un tr dl cr ud er eq tc) := w in
  mkWorld ts hs ms fs un tr dl cr ud er eq (tc ++ [e]).

(** ** The monad *)

Definition M (A : Type) : Type := World → Outcome A * World.

Definition ret {A} (a : A) : M A := λ w, (Normal a, w).

Definition bind {A B} (m : M A) (k : A → M B) : M B := λ w,
  match m w with
  | (Normal a, w') => k a w'
  | (Raised e, w') => (Raised e, w')
  | (Terminated, w') => (Terminated, w')
  end.

Definition raise {A} (e : Exn) : M A := λ w, (Raised e, w).

(** [try: m  except Exception as e: h e] *)
Definition try_except {A} (m : M A) (h : Exn → M A) : M A := λ w,
  match m w with
  | (Raised e, w') => h e w'
  | r => r
  end.

(** [try: m  finally: f]; a terminated process runs no [finally]. *)
Definition try_finally {A} (m : M A) (f : M unit) : M A := λ w,
  match m w with
  | (Terminated, w') => (Terminated, w')
  | (r, w') =>
      match f w' with
      | (Normal _, w'') => (r, w'')
      | (Raised e, w'') => (Raised e, w'')
      | (Terminated, w'') => (Terminated, w'')
      end
  end.

Definition modify (f : World → World) : M unit := λ w, (Normal tt, f w).

Declare Scope action_scope.
Delimit Scope action_scope with action.
Notation "x <- c ;; k" := (bind c (λ x, k))
  (at level 100, c at next level, right associativity) : action_scope.
Notation "c ;; k" := (bind c (λ _, k))
  (at level 100, k at level 200, right associativity) : action_scope.
Local Open Scope action_scope.

(** ** Primitives: clock, uuid generator, engine, session *)

Definition nl : string := String (Ascii.ascii_of_nat 10) EmptyString.

(** [datetime.utcnow()] *)
Definition utcnow (env : Env) : M Z := λ w,
  (Normal (utcnow_at env (clock_reads w)), set_clock_reads (S (clock_reads w)) w).

(** [str(uuid.uuid4())] *)
Definition uuid4 (env : Env) : M string := λ w,
  (Normal (uuid4_at env (uuid_draws w)), set_uuid_draws (S (uuid_draws w)) w).

(** [str(run_crew(query=query, file_path=file_path))] *)
Definition run_crew (env : Env) (query file_path : string) : M string := λ w,
  let w' := set_engine_runs (S (engine_runs w)) (log (EvRunCrew query file_path) w) in
  match run_crew_at env (engine_runs w) query file_path with
  | Returns r => (Normal r, w')
  | Raises e => (Raised e, w')
  | Overruns => (Terminated, w')
  end.

(** [db = SessionLocal()]: a fresh session, nothing loaded, nothing marked. *)
Definition SessionLocal : M unit :=
  modify (λ w, set_deleted [] (set_task_record None w)).

(** [db.close()] *)
Definition db_close : M unit :=
  modify (λ w, set_deleted [] (set_task_record None w)).

(** [task_record = db.query(AnalysisTask).filter(AnalysisTask.id == task_id).first()] *)
Definition load_task_record (task_id : string) : M (option AnalysisTask.t) := λ w,
  match tasks w !! task_id with
  | Some r => (Normal (Some r), set_task_record (Some (task_id, r)) w)
  | None => (Normal None, set_task_record None w)
  end.

(** The current value of the local variable [task_record]. *)
Definition get_task_record : M (option AnalysisTask.t) := λ w,
  (Normal (snd <$> task_record w), w).

(** [task_record.<column> = ...] *)
Definition update_record (f : AnalysisTask.t → AnalysisTask.t) : M unit :=
  modify (λ w, set_task_record (prod_map (λ k, k) f <$> task_record w) w).

(** [db.delete(row)]: the row is marked; it goes at the next commit. *)
Definition db_delete (tbl : Table) (id : string) : M unit :=
  modify (λ w, set_deleted (deleted w ++ [(tbl, id)]) (log (EvDelete tbl id) w)).

Definition apply_delete (w : World) (d : Table * string) : World :=
  match d with
  | (TasksT, k) => set_tasks (delete k (tasks w)) w
  | (HistoryT, k) => set_history (delete k (history w)) w
  | (MetricsT, k) => set_metrics (delete k (metrics w)) w
  end.

(** [db.commit()]: the session's task object is written, the marked rows
    are deleted. *)
Definition db_commit : M unit :=
  modify (λ w,
    let w1 := match task_record w with
              | Some (k, r) => set_tasks (<[k:=r]> (tasks w)) (log (EvCommit k r) w)
              | None => w
              end in
    set_deleted [] (foldl apply_delete w1 (deleted w1))).

(** [self.update_state(state="PROCESSING", meta={"current": c, "total": 100, "status": msg})] *)
Definition update_state (current : Z) (msg : string) : M unit :=
  modify (log (EvProgress current msg)).

(** ** celery_app.py *)

Definition task_time_limit : Z := 30 * 60.        (* 30 minutes hard limit *)
Definition task_soft_time_limit : Z := 25 * 60.   (* 25 minutes soft limit *)

(** The dictionaries the task returns. *)
Inductive TaskReturn :=
| RetNotFound                                 (* {"error": "Task record not found"} *)
| RetCompleted (task_id result : string)      (* status "completed" *)
| RetFailed (task_id error : string).         (* status "failed" *)

(** [timedelta.total_seconds()] of a difference of two datetimes. *)
Definition total_seconds (d : Z) : Q := Qmake d 1000000.

(** [if task_record.started_at: duration = (datetime.utcnow() -
    task_record.started_at).total_seconds(); task_record.duration_seconds = duration] *)
Definition record_duration (env : Env) : M unit :=
  rec <- get_task_record ;;
  match rec ≫= AnalysisTask.started_at with
  | Some s =>
      now <- utcnow env ;;
      update_record (AnalysisTask.set_duration_seconds (Some (total_seconds (now - s))))
  | None => ret tt
  end.

Definition analyze_financial_document_task
    (env : Env) (request_id task_id query file_path : string) : M TaskReturn :=
  SessionLocal ;;
  try_finally
    (try_except
       (found <- load_task_record task_id ;;
        match found with
        | None => ret RetNotFound
        | Some _ =>
            update_record (AnalysisTask.set_status "processing") ;;
            now <- utcnow env ;;
            update_record (AnalysisTask.set_started_at (Some now)) ;;
            update_record (AnalysisTask.set_celery_task_id (Some request_id)) ;;
            db_commit ;;
            update_state 0 "Initializing crew..." ;;
            update_state 50 "Running crew analysis..." ;;
            result <- run_crew env query file_path ;;
            update_record (AnalysisTask.set_analysis_result (Some result)) ;;
            update_record (AnalysisTask.set_status "completed") ;;
            now <- utcnow env ;;
            update_record (AnalysisTask.set_completed_at (Some now)) ;;
            record_duration env ;;
            db_commit ;;
            ret (RetCompleted task_id result)
        end)
       (λ e,
          rec <- get_task_record ;;
          match rec with
          | Some _ =>
              update_record (AnalysisTask.set_status "failed") ;;
              update_record
                (AnalysisTask.set_error_message (Some (str e +:+ nl +:+ format_exc e))) ;;
              now <- utcnow env ;;
              update_record (AnalysisTask.set_completed_at (Some now)) ;;
              record_duration env ;;
              db_commit
          | None => ret tt
          end ;;
          ret (RetFailed task_id (str e))))
    db_close.

(** ** main.py *)

Record UploadFile := mkUploadFile {
  filename : string;
  content : string
}.

(** The response of [POST /analyze] with status "queued". *)
Inductive Response :=
| Queued (task_id celery_task_id file_processed : string).

Definition default_query : string :=
  "Analyze this financial document for investment insights".

(** Python's [str.strip()], on the ASCII white space. *)
Definition is_space (c : Ascii.ascii) : bool :=
  match Ascii.nat_of_ascii c with
  | 9 | 10 | 11 | 12 | 13 | 28 | 29 | 30 | 31 | 32 => true
  | _ => false
  end.

Fixpoint lstrip (s : string) : string :=
  match s with
  | String c s' => if is_space c then lstrip s' else s
  | EmptyString => EmptyString
  end.

Definition strip (s : string) : string :=
  String.rev (lstrip (String.rev (lstrip s))).

(** [with open(file_path, "wb") as f: f.write(content)] *)
Definition write_file (path data : string) : M unit :=
  modify (λ w, set_files (<[path:=data]> (files w)) w).

(** [db.add(task_record); db.commit(); db.refresh(task_record)]: an INSERT,
    refused on a primary key already in the table. *)
Definition db_add_task (id : string) (row : AnalysisTask.t) : M unit := λ w,
  match tasks w !! id with
  | Some _ => (Raised (PyError "IntegrityError" ""), w)
  | None =>
      (Normal tt,
       set_task_record (Some (id, row))
         (set_tasks (<[id:=row]> (tasks w)) (log (EvCommit id row) w)))
  end.

(** [db.add(history); db.commit()] *)
Definition db_add_history (id : string) (row : UserAnalysisHistory.t) : M unit := λ w,
  match history w !! id with
  | Some _ => (Raised (PyError "IntegrityError" ""), w)
  | None => (Normal tt, set_history (<[id:=row]> (history w)) w)
  end.

(** [analyze_financial_document_task.delay(task_id=..., query=..., file_path=...)] *)
Definition delay (env : Env) (task_id query file_path : string) : M string := λ w,
  let w' := set_enqueues (S (enqueues w)) w in
  match delay_at env (enqueues w) with
  | inl e => (Raised e, w')
  | inr celery_id => (Normal celery_id, log (EvEnqueue task_id query file_path) w')
  end.

Definition analyze_document
    (env : Env) (file : UploadFile) (query : option string) : M Response :=
  file_id <- uuid4 env ;;
  let file_path := "data/financial_document_" +:+ file_id +:+ ".pdf" in
  try_except
    (write_file file_path (content file) ;;
     (* Validate query *)
     let query := match query with
                  | None => default_query
                  | Some q => if decide (q = "") then default_query else q
                  end in
     (* Create task record in database *)
     created <- utcnow env ;;
     task_id <- uuid4 env ;;
     db_add_task task_id
       (AnalysisTask.mk (filename file) (Some file_path) (strip query) "pending"
                        None None created None None None None) ;;
     (* Enqueue the analysis task *)
     celery_id <- delay env task_id (strip query) file_path ;;
     (* Update task with Celery ID *)
     update_record (AnalysisTask.set_celery_task_id (Some celery_id)) ;;
     db_commit ;;
     (* Track user history *)
     history_id <- uuid4 env ;;
     history_created <- utcnow env ;;
     db_add_history history_id
       (UserAnalysisHistory.mk None task_id (filename file) None None
                               "investment" None history_created) ;;
     ret (Queued task_id celery_id (filename file)))
    (λ e, raise (HTTPException 500
                   ("Error processing financial document: " +:+ str e))).

(** [POST /analyze] as FastAPI serves it: [file = File(...)] is required,
    [query] has a default, [db = Depends(get_db)] opens a session and
    closes it in a [finally]. *)
Definition post_analyze
    (env : Env) (file : option UploadFile) (query : option string) : M Response :=
  match file with
  | None => raise (HTTPException 422 "Field required")
  | Some f =>
      SessionLocal ;;
      try_finally
        (analyze_document env f (Some (default default_query query)))
        db_close
  end.

(** [AnalysisTask.to_dict] *)
Record TaskDict := mkTaskDict {
  d_id : string;
  d_file_name : string;
  d_query : string;
  d_status : string;
  d_analysis_result : option string;
  d_error_message : option string;
  d_created_at : Z;
  d_started_at : option Z;
  d_completed_at : option Z;
  d_duration_seconds : option Q
}.

Definition to_dict (r : string * AnalysisTask.t) : TaskDict :=
  mkTaskDict r.1 (AnalysisTask.file_name r.2) (AnalysisTask.query r.2)
             (AnalysisTask.status r.2) (AnalysisTask.analysis_result r.2)
             (AnalysisTask.error_message r.2) (AnalysisTask.created_at r.2)
             (AnalysisTask.started_at r.2) (AnalysisTask.completed_at r.2)
             (AnalysisTask.duration_seconds r.2).

(** [.order_by(AnalysisTask.created_at.desc())] *)
Definition created_desc (a b : string * AnalysisTask.t) : Prop :=
  (AnalysisTask.created_at b.2 ≤ AnalysisTask.created_at a.2)%Z.

#[global] Instance created_desc_dec a b : Decision (created_desc a b).
Proof. unfold created_desc. apply _. Defined.

#[global] Instance created_desc_transitive : Transitive created_desc.
Proof. unfold created_desc. intros a b c Hab Hbc. lia. Qed.

#[global] Instance created_desc_total : Total created_desc.
Proof. unfold created_desc. intros a b. lia. Qed.





(** ** manage_db.py *)


(** [os.path.exists(path)] *)
Definition os_path_exists (path : string) : M bool := λ w,
  (Normal (bool_decide (is_Some (files w !! path))), w).

(** [os.remove(path)] *)
Definition os_remove (path : string) : M unit := λ w,
  if decide (path ∈ undeletable w) then (Raised (PyError "PermissionError" ""), w)
  else match files w !! path with
       | Some _ => (Normal tt, set_files (delete path (files w)) (log (EvRemove path) w))
       | None => (Raised (PyError "FileNotFoundError" ""), w)
       end.

(** [for x in l: body x] *)
Fixpoint for_each {A} (l : list A) (body : A → M unit) : M unit :=
  match l with
  | [] => ret tt
  | x :: l' => body x ;; for_each l' body
  end.








(** ** The other functions of the same files *)

(** celery_app.py, [cleanup_temp_files]: the file is removed when it is
    there; whatever goes wrong is logged and swallowed. *)
Definition cleanup_temp_files (file_path : string) : M unit :=
  try_except
    (there <- os_path_exists file_path ;;
     if there : bool then os_remove file_path else ret tt)
    (λ _, ret tt).

(** main.py, [GET /tasks/{task_id}/result]. *)
Inductive ResultResponse :=
| StillProcessing (task_id status : string)
    (* "Task is still processing. Please try again later." *)
| FailedResult (task_id : string) (error : option string)
| CompletedResult (task_id file_name query : string) (result : option string)
    (completed_at : option Z) (duration_seconds : option Q).

Definition get_task_result (task_id : string) : M ResultResponse :=
  SessionLocal ;;
  try_finally
    (found <- load_task_record task_id ;;
     match found with
     | None => raise (HTTPException 404 ("Task " +:+ task_id +:+ " not found"))
     | Some t =>
         if decide (AnalysisTask.status t = "pending" ∨
                    AnalysisTask.status t = "processing")
         then ret (StillProcessing task_id (AnalysisTask.status t))
         else if decide (AnalysisTask.status t = "failed")
         then ret (FailedResult task_id (AnalysisTask.error_message t))
         else ret (CompletedResult task_id (AnalysisTask.file_name t)
                     (AnalysisTask.query t) (AnalysisTask.analysis_result t)
                     (AnalysisTask.completed_at t)
                     (AnalysisTask.duration_seconds t))
     end)
    db_close.

(** main.py, [GET /tasks/{task_id}]. [celery_app.AsyncResult(id)] is read
    from the result backend: its [state] and [info]. *)
Record AsyncResult := mkAsyncResult {
  state : string;
  info : option string
}.

Definition get_task_status (backend : string → AsyncResult) (task_id : string)
    : M (TaskDict * option AsyncResult) :=
  SessionLocal ;;
  try_finally
    (found <- load_task_record task_id ;;
     match found with
     | None => raise (HTTPException 404 ("Task " +:+ task_id +:+ " not found"))
     | Some t =>
         (* Get Celery task status if available *)
         let celery_status :=
           match AnalysisTask.celery_task_id t with
           | Some c => if decide (c = "") then None else Some (backend c)
           | None => None
           end in
         ret (to_dict (task_id, t), celery_status)
     end)
    db_close.

(** manage_db.py, [cleanup_failed_tasks]: every failed task goes, with its
    file when that can be removed; a bare [except: pass] guards the
    removal. *)
Definition query_failed_tasks : M (list (string * AnalysisTask.t)) := λ w,
  (Normal (filter (λ r, AnalysisTask.status r.2 = "failed") (map_to_list (tasks w))), w).

Definition cleanup_failed_task (task : string * AnalysisTask.t) : M unit :=
  (* Clean up file *)
  match AnalysisTask.file_path task.2 with
  | Some p =>
      if decide (p = "") then ret tt
      else
        there <- os_path_exists p ;;
        if there : bool then try_except (os_remove p) (λ _, ret tt) else ret tt
  | None => ret tt
  end ;;
  db_delete TasksT task.1.

Definition cleanup_failed_tasks : M unit :=
  SessionLocal ;;
  failed_tasks <- query_failed_tasks ;;
  match failed_tasks with
  | [] => ret tt
  | _ =>
      for_each failed_tasks cleanup_failed_task ;;
      db_commit ;;
      db_close
  end.

(** manage_db.py, [show_task_stats]: the figures it prints. *)
Record TaskStats := mkTaskStats {
  total_tasks : nat;
  pending_tasks : nat;
  processing_tasks : nat;
  completed_tasks : nat;
  failed_tasks : nat;
  avg_duration : Q;
  history_count : nat;
  metrics_count : nat;
  total_tokens : Z
}.

(** [db.query(AnalysisTask).filter(AnalysisTask.status == s).count()] *)
Definition count_status (s : string) (w : World) : nat :=
  length (filter (λ r, AnalysisTask.status r.2 = s) (map_to_list (tasks w))).

(** [sum(xs)] on floats and on integers: from 0, left to right. *)
Definition sum_Q (xs : list Q) : Q := foldl Qplus (0%Q) xs.
Definition sum_Z (xs : list Z) : Z := foldl Z.add 0%Z xs.

Definition show_task_stats : M TaskStats := λ w,
  (* Get average processing time *)
  let completed :=
    omap (λ r, if decide (AnalysisTask.status r.2 = "completed")
               then AnalysisTask.duration_seconds r.2 else None)
         (map_to_list (tasks w)) in
  let avg :=
    match completed with
    | [] => 0%Q
    | _ => (sum_Q completed / inject_Z (Z.of_nat (length completed)))%Q
    end in
  let tokens :=
    omap (λ m, match AnalysisMetrics.tokens_used m.2 with
               | Some n => if decide (n = 0%Z) then None else Some n
               | None => None
               end)
         (map_to_list (metrics w)) in
  (Normal (mkTaskStats (size (tasks w))
                       (count_status "pending" w) (count_status "processing" w)
                       (count_status "completed" w) (count_status "failed" w)
                       avg (size (history w)) (size (metrics w)) (sum_Z tokens)),
   set_deleted [] (set_task_record None w)).

(** ** Observations used to state the properties *)

(** The rows the worker writes: after the dispatch (lines 67-69), after a
    successful run (lines 85-92) and in the handler (lines 108-114). *)
Definition row_processing (now : Z) (request_id : string)
    (t : AnalysisTask.t) : AnalysisTask.t :=
  AnalysisTask.set_celery_task_id (Some request_id)
    (AnalysisTask.set_started_at (Some now)
       (AnalysisTask.set_status "processing" t)).

Definition row_completed (result : string) (now : Z) (duration : Q)
    (t : AnalysisTask.t) : AnalysisTask.t :=
  AnalysisTask.set_duration_seconds (Some duration)
    (AnalysisTask.set_completed_at (Some now)
       (AnalysisTask.set_status "completed"
          (AnalysisTask.set_analysis_result (Some result) t))).

Definition row_failed (e : Exn) (now : Z) (duration : Q)
    (t : AnalysisTask.t) : AnalysisTask.t :=
  AnalysisTask.set_duration_seconds (Some duration)
    (AnalysisTask.set_completed_at (Some now)
       (AnalysisTask.set_error_message (Some (str e +:+ nl +:+ format_exc e))
          (AnalysisTask.set_status "failed" t))).

(** The states of job [task_id] committed along a trace, oldest first. *)
Fixpoint committed_statuses (task_id : string) (evs : list Event) : list string :=
  match evs with
  | [] => []
  | EvCommit k row :: evs' =>
      if decide (k = task_id)
      then AnalysisTask.status row :: committed_statuses task_id evs'
      else committed_statuses task_id evs'
  | _ :: evs' => committed_statuses task_id evs'
  end.

(** The transitions of the lifecycle table of the specification. *)
Definition forward (a b : string) : bool :=
  bool_decide (a = "pending" ∧ b = "processing") ||
  bool_decide (a = "processing" ∧ b = "processing") ||
  bool_decide (a = "processing" ∧ b = "completed") ||
  bool_decide (a = "processing" ∧ b = "failed").

Fixpoint forward_chain (l : list string) : bool :=
  match l with
  | a :: (b :: _) as l' => forward a b && forward_chain l'
  | _ => true
  end.








(** What the sweep does about the document of one job: nothing, and then
    there was nothing it could remove, or the file is removed. *)
Definition document_step (un : gset string) (t : AnalysisTask.t)
    (fs fs' : gmap string string) (document : list Event) : Prop :=
  (document = [] ∧ fs' = fs ∧
   ∀ p, AnalysisTask.file_path t = Some p → p ≠ "" → p ∉ un → fs !! p = None) ∨
  (∃ p, AnalysisTask.file_path t = Some p ∧ document = [EvRemove p] ∧
        fs' = delete p fs).



(** ** Example worlds *)

Definition clock_every_minute : nat → Z := λ k, (60000000 * Z.of_nat (S k))%Z.

Definition uuid_of_draw : nat → string := λ k,
  match k with
  | 0 => "f0e1" | 1 => "a1b2" | 2 => "c3d4" | _ => "ffff"
  end.

Definition env_with (engine : EngineOutcome) (broker : Exn + string) : Env :=
  mkEnv clock_every_minute uuid_of_draw (λ _ _ _, engine) (λ _, broker) true.

Definition boom : Exn := PyError "engine failed" "Traceback (most recent call last): ...".

Definition job (status : string) (result error : option string)
    (started completed : option Z) : AnalysisTask.t :=
  AnalysisTask.mk "report.pdf" (Some "data/financial_document_f0e1.pdf")
    "summarize" status result error 1000%Z started completed None (Some "msg-1").

Definition world_with (t : AnalysisTask.t) : World :=
  mkWorld {["job-1" := t]} ∅ ∅
          {["data/financial_document_f0e1.pdf" := "%PDF"]} ∅ None [] 0 0 0 0 [].

Definition job_pending : AnalysisTask.t :=
  AnalysisTask.mk "report.pdf" (Some "data/financial_document_f0e1.pdf")
    "summarize" "pending" None None 1000%Z None None None (Some "msg-1").
Definition job_processing : AnalysisTask.t :=
  job "processing" None None (Some 2000%Z) None.
Definition job_completed : AnalysisTask.t :=
  job "completed" (Some "old analysis") None (Some 2000%Z) (Some 3000%Z).

Definition empty_world : World := mkWorld ∅ ∅ ∅ ∅ ∅ None [] 0 0 0 0 [].

Definition report : UploadFile := mkUploadFile "report.pdf" "%PDF-1.4".

(** A store for the sweep, 100 days after the epoch: a completed and a
    failed job that ended at the epoch, and a job completed 10 days ago. *)
Definition day : Z := (86400 * 1000000)%Z.


Definition ended (status : string) (document : string) (completed : Z) : AnalysisTask.t :=
  AnalysisTask.mk "report.pdf" (Some document) "summarize" status
    (if decide (status = "completed") then Some "analysis" else None)
    (if decide (status = "failed") then Some "engine failed" else None)
    0%Z (Some 0%Z) (Some completed) (Some 0%Q) None.

Definition sweep_world : World :=
  mkWorld
    (<["job-c" := ended "completed" "data/c.pdf" 0%Z]>
       (<["job-f" := ended "failed" "data/f.pdf" 0%Z]>
          (<["job-r" := ended "completed" "data/r.pdf" (90 * day)%Z]> ∅)))
    (<["h-c" := UserAnalysisHistory.mk None "job-c" "report.pdf" None None
                  "investment" None 0%Z]>
       (<["h-f" := UserAnalysisHistory.mk None "job-f" "report.pdf" None None
                     "investment" None 0%Z]> ∅))
    (<["m-c" := AnalysisMetrics.mk "job-c" None None None None None 0%Z]> ∅)
    (<["data/c.pdf" := "%PDF"]>
       (<["data/f.pdf" := "%PDF"]> (<["data/r.pdf" := "%PDF"]> ∅)))
    ∅ None [] 0 0 0 0 [].

Definition deliver (env : Env) (w : World) : Outcome TaskReturn * World :=
  analyze_financial_document_task env "msg-1" "job-1" "summarize"
    "data/financial_document_f0e1.pdf" w.




(** The world inside the loop of [cleanup_failed_tasks]: session opened,
    database as in [w]. *)
Definition session_state (w : World) (fs : gmap string string)
    (marks : list (Table * string)) (evs : list Event) : World :=
  mkWorld (tasks w) (history w) (metrics w) fs (undeletable w) None marks
          (clock_reads w) (uuid_draws w) (engine_runs w) (enqueues w) evs.

(** ** The worker task, outcome by outcome *)

Ltac run_task Hload :=
  unfold analyze_financial_document_task, try_finally, try_except, bind,
    SessionLocal, modify, load_task_record, run_crew;
  cbn in *; rewrite Hload; cbn.

Lemma run_returns env request_id task_id query file_path w t result :
  tasks w !! task_id = Some t →
  run_crew_at env (engine_runs w) query file_path = Returns result →
  let started := row_processing (utcnow_at env (clock_reads w)) request_id t in
  let final :=
    row_completed result (utcnow_at env (S (clock_reads w)))
      (total_seconds (utcnow_at env (S (S (clock_reads w))) -
                      utcnow_at env (clock_reads w)))
      started in
  ∃ w', analyze_financial_document_task env request_id task_id query file_path w
          = (Normal (RetCompleted task_id result), w') ∧
        tasks w' = <[task_id:=final]> (tasks w) ∧
        trace w' = trace w ++ [EvCommit task_id started;
                               EvProgress 0 "Initializing crew...";
                               EvProgress 50 "Running crew analysis...";
                               EvRunCrew query file_path;
                               EvCommit task_id final] ∧
        engine_runs w' = S (engine_runs w).
Proof.
  intros Hload Hengine started final. destruct w. run_task Hload.
  rewrite Hengine. cbn.
  eexists. split; [reflexivity|]. cbn.
  rewrite insert_insert_eq, <- !app_assoc.
  repeat apply conj; reflexivity.
Qed.

Lemma run_raises env request_id task_id query file_path w t e :
  tasks w !! task_id = Some t →
  run_crew_at env (engine_runs w) query file_path = Raises e →
  let started := row_processing (utcnow_at env (clock_reads w)) request_id t in
  let final :=
    row_failed e (utcnow_at env (S (clock_reads w)))
      (total_seconds (utcnow_at env (S (S (clock_reads w))) -
                      utcnow_at env (clock_reads w)))
      started in
  ∃ w', analyze_financial_document_task env request_id task_id query file_path w
          = (Normal (RetFailed task_id (str e)), w') ∧
        tasks w' = <[task_id:=final]> (tasks w) ∧
        trace w' = trace w ++ [EvCommit task_id started;
                               EvProgress 0 "Initializing crew...";
                               EvProgress 50 "Running crew analysis...";
                               EvRunCrew query file_path;
                               EvCommit task_id final] ∧
        engine_runs w' = S (engine_runs w).
Proof.
  intros Hload Hengine started final. destruct w. run_task Hload.
  rewrite Hengine. cbn.
  eexists. split; [reflexivity|]. cbn.
  rewrite insert_insert_eq, <- !app_assoc.
  repeat apply conj; reflexivity.
Qed.

Lemma run_overruns env request_id task_id query file_path w t :
  tasks w !! task_id = Some t →
  run_crew_at env (engine_runs w) query file_path = Overruns →
  let started := row_processing (utcnow_at env (clock_reads w)) request_id t in
  ∃ w', analyze_financial_document_task env request_id task_id query file_path w
          = (Terminated, w') ∧
        tasks w' = <[task_id:=started]> (tasks w) ∧
        trace w' = trace w ++ [EvCommit task_id started;
                               EvProgress 0 "Initializing crew...";
                               EvProgress 50 "Running crew analysis...";
                               EvRunCrew query file_path] ∧
        engine_runs w' = S (engine_runs w).
Proof.
  intros Hload Hengine started. destruct w. run_task Hload.
  rewrite Hengine. cbn.
  eexists. split; [reflexivity|]. cbn.
  rewrite <- !app_assoc.
  repeat apply conj; reflexivity.
Qed.

Lemma run_absent env request_id task_id query file_path w :
  tasks w !! task_id = None →
  ∃ w', analyze_financial_document_task env request_id task_id query file_path w
          = (Normal RetNotFound, w') ∧
        tasks w' = tasks w ∧ history w' = history w ∧ metrics w' = metrics w ∧
        files w' = files w ∧ trace w' = trace w ∧ engine_runs w' = engine_runs w.
Proof.
  intros Hnone. destruct w. run_task Hnone.
  eexists. split; [reflexivity|]. cbn.
  repeat apply conj; reflexivity.
Qed.


(** One delivery for a job that is in the store, whatever its state: the
    dispatch is committed, the engine is called once, and the engine's
    outcome decides the rest. *)
Lemma run_present env request_id task_id query file_path w t :
  tasks w !! task_id = Some t →
  let started := row_processing (utcnow_at env (clock_reads w)) request_id t in
  let now := utcnow_at env (S (clock_reads w)) in
  let duration := total_seconds (utcnow_at env (S (S (clock_reads w))) -
                                 utcnow_at env (clock_reads w)) in
  ∃ o w' final evs,
    analyze_financial_document_task env request_id task_id query file_path w = (o, w') ∧
    tasks w' = <[task_id:=final]> (tasks w) ∧
    trace w' = trace w ++ [EvCommit task_id started;
                           EvProgress 0 "Initializing crew...";
                           EvProgress 50 "Running crew analysis...";
                           EvRunCrew query file_path] ++ evs ∧
    engine_runs w' = S (engine_runs w) ∧
    match run_crew_at env (engine_runs w) query file_path with
    | Returns r =>
        o = Normal (RetCompleted task_id r) ∧
        final = row_completed r now duration started ∧
        evs = [EvCommit task_id final]
    | Raises e =>
        o = Normal (RetFailed task_id (str e)) ∧
        final = row_failed e now duration started ∧
        evs = [EvCommit task_id final]
    | Overruns => o = Terminated ∧ final = started ∧ evs = []
    end.
Proof.
  intros Hload started now duration.
  destruct (run_crew_at env (engine_runs w) query file_path) as [r|e|] eqn:He.
  - destruct (run_returns env request_id _ _ _ _ _ _ Hload He)
      as (w' & Hrun & Htasks & Htrace & Hruns).
    eexists _, w', _, [EvCommit task_id _].
    split; [exact Hrun|]. split; [exact Htasks|]. split; [exact Htrace|].
    split; [exact Hruns|]. repeat apply conj; reflexivity.
  - destruct (run_raises env request_id _ _ _ _ _ _ Hload He)
      as (w' & Hrun & Htasks & Htrace & Hruns).
    eexists _, w', _, [EvCommit task_id _].
    split; [exact Hrun|]. split; [exact Htasks|]. split; [exact Htrace|].
    split; [exact Hruns|]. repeat apply conj; reflexivity.
  - destruct (run_overruns env request_id _ _ _ _ _ Hload He)
      as (w' & Hrun & Htasks & Htrace & Hruns).
    eexists _, w', _, [].
    split; [exact Hrun|]. split; [exact Htasks|]. split; [exact Htrace|].
    split; [exact Hruns|]. repeat apply conj; reflexivity.
Qed.

(** ** Duplicate delivery (C1) *)

(** C1, counterexample. The job "job-1" is completed; its message is
    delivered again. The engine is invoked once more and the stored record
    changes: the delivery is not a no-op. *)
Lemma duplicate_delivery_reruns_completed_job :
  let w := world_with job_completed in
  let w' := (deliver (env_with (Returns "new analysis") (inr "msg-1")) w).2 in
  AnalysisTask.status <$> tasks w !! "job-1" = Some "completed" ∧
  engine_runs w = 0 ∧ engine_runs w' = 1 ∧
  tasks w' !! "job-1" ≠ tasks w !! "job-1".
Proof.
  vm_compute. repeat apply conj; try reflexivity. discriminate.
Qed.

(** C1, amended. A delivery for a job that is already completed is
    processed like a first delivery: the job is committed as processing
    with [started_at] and [celery_task_id] overwritten, and the analysis
    engine is invoked exactly once more. The only delivery that is a no-op
    is one for a job id that is not in the store. *)
Theorem completed_job_delivery_is_processed_again
    env request_id task_id query file_path w t :
  tasks w !! task_id = Some t →
  AnalysisTask.status t = "completed" →
  let run := analyze_financial_document_task env request_id in
  (∃ o w' evs row,
     run task_id query file_path w = (o, w') ∧
     engine_runs w' = S (engine_runs w) ∧
     trace w' = trace w ++
       EvCommit task_id (row_processing (utcnow_at env (clock_reads w)) request_id t)
       :: evs ∧
     tasks w' !! task_id = Some row ∧
     AnalysisTask.started_at row = Some (utcnow_at env (clock_reads w)) ∧
     AnalysisTask.celery_task_id row = Some request_id) ∧
  (∀ other q f, tasks w !! other = None →
     ∃ w', run other q f w = (Normal RetNotFound, w') ∧
           tasks w' = tasks w ∧ trace w' = trace w ∧
           engine_runs w' = engine_runs w).
Proof.
  intros Hload _ run. split.
  - destruct (run_present env request_id _ query file_path _ _ Hload)
      as (o & w' & final & evs & Hrun & Htasks & Htrace & Hruns & Hcase).
    exists o, w'. eexists _, final.
    split; [exact Hrun|]. split; [exact Hruns|]. split; [exact Htrace|].
    split; [by rewrite Htasks, lookup_insert_eq|].
    destruct (run_crew_at env (engine_runs w) query file_path);
      destruct Hcase as (_ & -> & _); by destruct t.
  - intros other q f Hnone.
    destruct (run_absent env request_id _ q f _ Hnone)
      as (w' & Hrun & Htasks & _ & _ & _ & Htrace & Hruns).
    by exists w'.
Qed.

Lemma completed_job_delivery_is_processed_again_witness :
  let env := env_with (Returns "new analysis") (inr "msg-1") in
  let w := world_with job_completed in
  tasks w !! "job-1" = Some job_completed ∧
  AnalysisTask.status job_completed = "completed" ∧
  ∃ o w' evs row,
    deliver env w = (o, w') ∧
    engine_runs w' = S (engine_runs w) ∧
    trace w' = trace w ++
      EvCommit "job-1" (row_processing (utcnow_at env (clock_reads w)) "msg-1" job_completed)
      :: evs ∧
    tasks w' !! "job-1" = Some row ∧
    AnalysisTask.started_at row = Some (utcnow_at env (clock_reads w)) ∧
    AnalysisTask.celery_task_id row = Some "msg-1".
Proof.
  intros env w.
  assert (Hload : tasks w !! "job-1" = Some job_completed) by (vm_compute; reflexivity).
  assert (Hstatus : AnalysisTask.status job_completed = "completed") by reflexivity.
  split; [exact Hload|]. split; [exact Hstatus|].
  exact (proj1 (completed_job_delivery_is_processed_again
                  env "msg-1" "job-1" "summarize"
                  "data/financial_document_f0e1.pdf" w job_completed
                  Hload Hstatus)).
Defined.

(** ** Forward-only states (C2) *)

(** C2, counterexample. A completed job whose message is delivered again
    is committed as processing and then as completed again: the state
    regresses from a terminal state and the delivery is accepted. *)
Lemma completed_job_returns_to_processing :
  let w := world_with job_completed in
  let r := deliver (env_with (Returns "new analysis") (inr "msg-1")) w in
  AnalysisTask.status <$> tasks w !! "job-1" = Some "completed" ∧
  r.1 = Normal (RetCompleted "job-1" "new analysis") ∧
  committed_statuses "job-1" (trace r.2) = ["processing"; "completed"] ∧
  forward_chain ("completed" :: committed_statuses "job-1" (trace r.2)) = false.
Proof.
  vm_compute. repeat apply conj; reflexivity.
Qed.

(** C2, amended. A delivery for a job in state pending moves it forward
    along pending, processing, then completed or failed (it stays in
    processing when the worker is terminated). The worker does not look at
    the current state: a delivery for a job in any state, a terminal one
    included, commits processing and then completed or failed; no delivery
    is rejected. *)
Theorem delivery_commits_processing_then_terminal
    env request_id task_id query file_path w t :
  tasks w !! task_id = Some t →
  ∃ o w' evs,
    analyze_financial_document_task env request_id task_id query file_path w = (o, w') ∧
    trace w' = trace w ++ evs ∧
    committed_statuses task_id evs
    = "processing" :: match run_crew_at env (engine_runs w) query file_path with
                      | Returns _ => ["completed"]
                      | Raises _ => ["failed"]
                      | Overruns => []
                      end ∧
    (AnalysisTask.status t = "pending" →
     forward_chain (AnalysisTask.status t :: committed_statuses task_id evs) = true).
Proof.
  intros Hload.
  destruct (run_present env request_id _ query file_path _ _ Hload)
    as (o & w' & final & evs & Hrun & Htasks & Htrace & Hruns & Hcase).
  exists o, w'. eexists. split; [exact Hrun|]. split; [exact Htrace|].
  assert (Hseq : committed_statuses task_id
            ([EvCommit task_id
                (row_processing (utcnow_at env (clock_reads w)) request_id t);
              EvProgress 0 "Initializing crew...";
              EvProgress 50 "Running crew analysis...";
              EvRunCrew query file_path] ++ evs)
          = "processing" :: match run_crew_at env (engine_runs w) query file_path with
                            | Returns _ => ["completed"]
                            | Raises _ => ["failed"]
                            | Overruns => []
                            end).
  { cbn. rewrite decide_True by done. f_equal.
    destruct (run_crew_at env (engine_runs w) query file_path);
      destruct Hcase as (_ & -> & ->); cbn; [| |done];
      by rewrite decide_True by done. }
  split; [exact Hseq|]. intros Hpending. rewrite Hseq, Hpending.
  by destruct (run_crew_at env (engine_runs w) query file_path).
Qed.

Lemma delivery_commits_processing_then_terminal_witness :
  let env := env_with (Raises boom) (inr "msg-1") in
  let w := world_with job_pending in
  tasks w !! "job-1" = Some job_pending ∧
  ∃ o w' evs,
    deliver env w = (o, w') ∧
    trace w' = trace w ++ evs ∧
    committed_statuses "job-1" evs
    = "processing" :: match run_crew_at env (engine_runs w) "summarize"
                              "data/financial_document_f0e1.pdf" with
                      | Returns _ => ["completed"]
                      | Raises _ => ["failed"]
                      | Overruns => []
                      end ∧
    (AnalysisTask.status job_pending = "pending" →
     forward_chain (AnalysisTask.status job_pending :: committed_statuses "job-1" evs)
     = true).
Proof.
  intros env w.
  assert (Hload : tasks w !! "job-1" = Some job_pending) by (vm_compute; reflexivity).
  split; [exact Hload|].
  exact (delivery_commits_processing_then_terminal
           env "msg-1" "job-1" "summarize" "data/financial_document_f0e1.pdf"
           w job_pending Hload).
Defined.

(** ** Result and error (C3) *)




(** ** Time limits (C4) *)

(** C4, counterexample. The engine call of a pending job is still running
    when the hard limit expires and the worker is terminated: the job stays
    in processing, with no error and no [completed_at]. *)
Lemma hard_limit_leaves_job_processing :
  let w := world_with job_pending in
  let r := deliver (env_with Overruns (inr "msg-1")) w in
  r.1 = Terminated ∧
  ∃ row, tasks r.2 !! "job-1" = Some row ∧
         AnalysisTask.status row = "processing" ∧
         AnalysisTask.error_message row = None ∧
         AnalysisTask.completed_at row = None ∧
         AnalysisTask.duration_seconds row = None.
Proof.
  split; [vm_compute; reflexivity|].
  eexists. split; [vm_compute; reflexivity|].
  repeat apply conj; reflexivity.
Qed.

(** C4, amended. The soft limit (25 minutes) is shorter than the hard limit
    (30 minutes). When the engine call is cut off by the hard limit the
    worker is terminated and the job keeps the state of the dispatch:
    processing, with [error_message], [completed_at] and
    [duration_seconds] as they were. A failed transition is applied only
    when an exception is raised inside the task, which is how the soft
    limit arrives: the job then ends failed with [error_message] the text
    of the exception and its traceback (no cause [Timeout]),
    [completed_at] set and the duration measured from [started_at]. *)
Theorem time_limit_outcomes env request_id task_id query file_path w t :
  tasks w !! task_id = Some t →
  let run := analyze_financial_document_task env request_id task_id query file_path in
  let now0 := utcnow_at env (clock_reads w) in
  let now1 := utcnow_at env (S (clock_reads w)) in
  let now2 := utcnow_at env (S (S (clock_reads w))) in
  (task_soft_time_limit < task_time_limit)%Z ∧
  (run_crew_at env (engine_runs w) query file_path = Overruns →
   ∃ w' row,
     run w = (Terminated, w') ∧
     tasks w' !! task_id = Some row ∧
     row = row_processing now0 request_id t ∧
     AnalysisTask.status row = "processing" ∧
     AnalysisTask.error_message row = AnalysisTask.error_message t ∧
     AnalysisTask.completed_at row = AnalysisTask.completed_at t ∧
     AnalysisTask.duration_seconds row = AnalysisTask.duration_seconds t) ∧
  (∀ e, run_crew_at env (engine_runs w) query file_path = Raises e →
   ∃ w' row,
     run w = (Normal (RetFailed task_id (str e)), w') ∧
     tasks w' !! task_id = Some row ∧
     AnalysisTask.status row = "failed" ∧
     AnalysisTask.error_message row = Some (str e +:+ nl +:+ format_exc e) ∧
     AnalysisTask.completed_at row = Some now1 ∧
     AnalysisTask.duration_seconds row = Some (total_seconds (now2 - now0))).
Proof.
  intros Hload run now0 now1 now2. split; [done|]. split.
  - intros He.
    destruct (run_overruns env request_id _ _ _ _ _ Hload He)
      as (w' & Hrun & Htasks & _).
    exists w'. eexists. split; [exact Hrun|].
    split; [by rewrite Htasks, lookup_insert_eq|]. by destruct t.
  - intros e He.
    destruct (run_raises env request_id _ _ _ _ _ _ Hload He)
      as (w' & Hrun & Htasks & _).
    exists w'. eexists. split; [exact Hrun|].
    split; [by rewrite Htasks, lookup_insert_eq|]. by destruct t.
Qed.

Lemma time_limit_outcomes_witness :
  let env := env_with Overruns (inr "msg-1") in
  let w := world_with job_pending in
  tasks w !! "job-1" = Some job_pending ∧
  (task_soft_time_limit < task_time_limit)%Z ∧
  ∃ w' row,
    deliver env w = (Terminated, w') ∧
    tasks w' !! "job-1" = Some row ∧
    row = row_processing (utcnow_at env (clock_reads w)) "msg-1" job_pending ∧
    AnalysisTask.status row = "processing" ∧
    AnalysisTask.error_message row = AnalysisTask.error_message job_pending ∧
    AnalysisTask.completed_at row = AnalysisTask.completed_at job_pending ∧
    AnalysisTask.duration_seconds row = AnalysisTask.duration_seconds job_pending.
Proof.
  intros env w.
  assert (Hload : tasks w !! "job-1" = Some job_pending) by (vm_compute; reflexivity).
  split; [exact Hload|].
  pose proof (time_limit_outcomes env "msg-1" "job-1" "summarize"
                "data/financial_document_f0e1.pdf" w job_pending Hload)
    as (Hlimits & Hhard & _).
  split; [exact Hlimits|exact (Hhard eq_refl)].
Defined.

(** ** started_at (C7) *)

(** C7, counterexample. A job in processing, started at 2000, is delivered
    again at clock reading 60000000: [started_at] is overwritten. *)
Lemma redelivery_overwrites_started_at :
  let w := world_with job_processing in
  let w' := (deliver (env_with (Returns "analysis") (inr "msg-1")) w).2 in
  AnalysisTask.status <$> tasks w !! "job-1" = Some "processing" ∧
  AnalysisTask.started_at <$> tasks w !! "job-1" = Some (Some 2000%Z) ∧
  AnalysisTask.started_at <$> tasks w' !! "job-1" = Some (Some 60000000%Z).
Proof.
  vm_compute. repeat apply conj; reflexivity.
Qed.

(** C7, amended. When a job already in processing is delivered again, its
    [started_at] is overwritten with the clock reading of that delivery:
    every delivery for a job in the store sets [started_at], not only the
    first one. *)
Theorem redelivery_sets_started_at env request_id task_id query file_path w t :
  tasks w !! task_id = Some t →
  AnalysisTask.status t = "processing" →
  ∃ o w' row,
    analyze_financial_document_task env request_id task_id query file_path w = (o, w') ∧
    tasks w' !! task_id = Some row ∧
    AnalysisTask.started_at row = Some (utcnow_at env (clock_reads w)).
Proof.
  intros Hload _.
  destruct (run_present env request_id _ query file_path _ _ Hload)
    as (o & w' & final & evs & Hrun & Htasks & Htrace & Hruns & Hcase).
  exists o, w', final. split; [exact Hrun|].
  split; [by rewrite Htasks, lookup_insert_eq|].
  destruct (run_crew_at env (engine_runs w) query file_path);
    destruct Hcase as (_ & -> & _); by destruct t.
Qed.

Lemma redelivery_sets_started_at_witness :
  let env := env_with (Returns "analysis") (inr "msg-1") in
  let w := world_with job_processing in
  tasks w !! "job-1" = Some job_processing ∧
  AnalysisTask.status job_processing = "processing" ∧
  ∃ o w' row,
    deliver env w = (o, w') ∧
    tasks w' !! "job-1" = Some row ∧
    AnalysisTask.started_at row = Some (utcnow_at env (clock_reads w)).
Proof.
  intros env w.
  assert (Hload : tasks w !! "job-1" = Some job_processing) by (vm_compute; reflexivity).
  split; [exact Hload|]. split; [reflexivity|].
  exact (redelivery_sets_started_at
           env "msg-1" "job-1" "summarize" "data/financial_document_f0e1.pdf"
           w job_processing Hload eq_refl).
Defined.

(** ** Failures stay inside the worker (C9) *)



(** ** Submission (C6, C8) *)

Ltac run_submission :=
  unfold post_analyze, analyze_document, try_finally, try_except, bind,
    SessionLocal, db_close, modify, uuid4, utcnow, write_file, db_add_task,
    delay, raise;
  cbn in *.

(** The default query is what [strip] leaves of it. *)
Lemma strip_default_query : strip default_query = default_query.
Proof. reflexivity. Qed.

Lemma post_analyze_queued env file query w celery_id :
  let file_path := "data/financial_document_" +:+ uuid4_at env (uuid_draws w) +:+ ".pdf" in
  let task_id := uuid4_at env (S (uuid_draws w)) in
  let history_id := uuid4_at env (S (S (uuid_draws w))) in
  let row := AnalysisTask.mk (filename file) (Some file_path) (strip query) "pending"
               None None (utcnow_at env (clock_reads w)) None None None
               (Some celery_id) in
  query ≠ "" →
  tasks w !! task_id = None →
  history w !! history_id = None →
  delay_at env (enqueues w) = inr celery_id →
  ∃ w', post_analyze env (Some file) (Some query) w
          = (Normal (Queued task_id celery_id (filename file)), w') ∧
        tasks w' = <[task_id:=row]> (tasks w) ∧
        trace w' = trace w ++
          [EvCommit task_id (AnalysisTask.set_celery_task_id None row);
           EvEnqueue task_id (strip query) file_path;
           EvCommit task_id row].
Proof.
  intros file_path task_id history_id row Hquery Htask Hhistory Hdelay.
  destruct w. run_submission.
  rewrite decide_False by done. cbn.
  subst task_id history_id. rewrite Htask. cbn. rewrite Hdelay. cbn.
  unfold db_add_history. cbn. rewrite Hhistory. cbn.
  eexists. split; [reflexivity|]. cbn.
  rewrite insert_insert_eq, <- !app_assoc. split; reflexivity.
Qed.

Lemma post_analyze_default_query env file query w :
  query = None ∨ query = Some "" →
  post_analyze env (Some file) query w
  = post_analyze env (Some file) (Some default_query) w.
Proof. intros [-> | ->]; reflexivity. Qed.

(** C6, counterexample. A submission with a document and an empty query is
    not rejected: it is answered "queued" and a job record is created. *)
Lemma empty_query_submission_creates_job :
  let env := env_with (Returns "analysis") (inr "msg-1") in
  let r := post_analyze env (Some report) (Some "") empty_world in
  tasks empty_world = ∅ ∧
  r.1 = Normal (Queued "a1b2" "msg-1" "report.pdf") ∧
  AnalysisTask.status <$> tasks r.2 !! "a1b2" = Some "pending" ∧
  AnalysisTask.query <$> tasks r.2 !! "a1b2" = Some default_query.
Proof.
  vm_compute. repeat apply conj; reflexivity.
Qed.

(** C6, amended. A submission without a document is rejected with a
    validation error before any job record is created and the store is
    left as it was. A submission whose query is missing or empty is not
    rejected: the default query takes its place, the job record is created
    in state pending with that query, and the job is enqueued. *)
Theorem submission_without_query_uses_default env file query w celery_id :
  let file_path := "data/financial_document_" +:+ uuid4_at env (uuid_draws w) +:+ ".pdf" in
  let task_id := uuid4_at env (S (uuid_draws w)) in
  let history_id := uuid4_at env (S (S (uuid_draws w))) in
  query = None ∨ query = Some "" →
  tasks w !! task_id = None →
  history w !! history_id = None →
  delay_at env (enqueues w) = inr celery_id →
  (∃ w' row,
     post_analyze env (Some file) query w
     = (Normal (Queued task_id celery_id (filename file)), w') ∧
     tasks w' = <[task_id:=row]> (tasks w) ∧
     AnalysisTask.status row = "pending" ∧
     AnalysisTask.query row = default_query ∧
     EvEnqueue task_id default_query file_path ∈ trace w') ∧
  (∀ q w0, post_analyze env None q w0
           = (Raised (HTTPException 422 "Field required"), w0)).
Proof.
  intros file_path task_id history_id Hquery Htask Hhistory Hdelay.
  split; [|reflexivity].
  rewrite (post_analyze_default_query env file query w Hquery).
  destruct (post_analyze_queued env file default_query w celery_id)
    as (w' & Hrun & Htasks & Htrace); [done..|].
  exists w'. eexists. split; [exact Hrun|]. split; [exact Htasks|].
  split; [reflexivity|]. split; [reflexivity|].
  rewrite Htrace, strip_default_query, elem_of_app, !elem_of_cons. auto.
Qed.

Lemma submission_without_query_uses_default_witness :
  let env := env_with (Returns "analysis") (inr "msg-1") in
  let w := empty_world in
  (Some "" = None ∨ Some "" = Some "") ∧
  tasks w !! "a1b2" = None ∧
  history w !! "c3d4" = None ∧
  delay_at env (enqueues w) = inr "msg-1" ∧
  ∃ w' row,
    post_analyze env (Some report) (Some "") w
    = (Normal (Queued "a1b2" "msg-1" (filename report)), w') ∧
    tasks w' = <[ "a1b2" := row ]> (tasks w) ∧
    AnalysisTask.status row = "pending" ∧
    AnalysisTask.query row = default_query ∧
    EvEnqueue "a1b2" default_query "data/financial_document_f0e1.pdf" ∈ trace w'.
Proof.
  intros env w.
  assert (Hquery : Some "" = None ∨ Some "" = Some "") by (right; reflexivity).
  assert (Htask : tasks w !! "a1b2" = None) by (vm_compute; reflexivity).
  assert (Hhistory : history w !! "c3d4" = None) by (vm_compute; reflexivity).
  assert (Hdelay : delay_at env (enqueues w) = inr "msg-1") by reflexivity.
  split; [exact Hquery|]. split; [exact Htask|]. split; [exact Hhistory|].
  split; [exact Hdelay|].
  exact (proj1 (submission_without_query_uses_default
                  env report (Some "") w "msg-1" Hquery Htask Hhistory Hdelay)).
Defined.

(** C8. When the enqueue step fails after the job record has been created
    and committed, the record is neither deleted nor rolled back: it stays
    in the store in state pending (no history record is written) while the
    caller receives an error response with status 500. *)
Theorem enqueue_failure_leaves_job_pending env file query w e :
  let task_id := uuid4_at env (S (uuid_draws w)) in
  tasks w !! task_id = None →
  delay_at env (enqueues w) = inl e →
  ∃ w' row,
    post_analyze env (Some file) query w
    = (Raised (HTTPException 500
                 ("Error processing financial document: " +:+ str e)), w') ∧
    tasks w' = <[task_id:=row]> (tasks w) ∧
    AnalysisTask.status row = "pending" ∧
    history w' = history w ∧
    trace w' = trace w ++ [EvCommit task_id row].
Proof.
  intros task_id Htask Hdelay. subst task_id.
  destruct w. destruct query as [q|]; run_submission.
  - destruct (decide (q = "")); cbn; rewrite Htask; cbn; rewrite Hdelay; cbn;
      (eexists _, _; split; [reflexivity|]; cbn; repeat apply conj; reflexivity).
  - rewrite Htask. cbn. rewrite Hdelay. cbn.
    eexists _, _. split; [reflexivity|]. cbn. repeat apply conj; reflexivity.
Qed.

Lemma enqueue_failure_leaves_job_pending_witness :
  let env := env_with (Returns "analysis") (inl (PyError "broker unreachable" "")) in
  let w := empty_world in
  tasks w !! "a1b2" = None ∧
  delay_at env (enqueues w) = inl (PyError "broker unreachable" "") ∧
  ∃ w' row,
    post_analyze env (Some report) (Some "summarize") w
    = (Raised (HTTPException 500
                 ("Error processing financial document: " +:+ "broker unreachable")), w') ∧
    tasks w' = <[ "a1b2" := row ]> (tasks w) ∧
    AnalysisTask.status row = "pending" ∧
    history w' = history w ∧
    trace w' = trace w ++ [EvCommit "a1b2" row].
Proof.
  intros env w.
  assert (Htask : tasks w !! "a1b2" = None) by (vm_compute; reflexivity).
  assert (Hdelay : delay_at env (enqueues w) = inl (PyError "broker unreachable" ""))
    by reflexivity.
  split; [exact Htask|]. split; [exact Hdelay|].
  exact (enqueue_failure_leaves_job_pending
           env report (Some "summarize") w (PyError "broker unreachable" "")
           Htask Hdelay).
Defined.

(** ** Listing (C10) *)






(** ** Retention sweep (C5) *)






Lemma apply_delete_frame w d :
  files (apply_delete w d) = files w ∧ trace (apply_delete w d) = trace w.
Proof. destruct w, d as [[] k]; done. Qed.

Lemma foldl_apply_delete_frame marks w :
  files (foldl apply_delete w marks) = files w ∧
  trace (foldl apply_delete w marks) = trace w.
Proof.
  revert w. induction marks as [|d marks IH]; intros w; [done|].
  cbn. destruct (IH (apply_delete w d)) as [-> ->]. apply apply_delete_frame.
Qed.

Ltac solve_apply_delete tbl0 k IH :=
  match goal with
  | |- context [foldl apply_delete ?w ((?tbl, ?k') :: ?marks)] =>
      change (foldl apply_delete w ((tbl, k') :: marks))
        with (foldl apply_delete (apply_delete w (tbl, k')) marks);
      rewrite IH;
      destruct (decide ((tbl0, k) ∈ marks)) as [Hin|Hin];
      [ rewrite decide_True by (by right); reflexivity
      | destruct (decide ((tbl, k') = (tbl0, k))) as [Heq|Hne];
        [ injection Heq as -> ->; rewrite decide_True by (by left);
          destruct w; cbn; apply lookup_delete_eq
        | rewrite decide_False by (by intros [?|?]%elem_of_cons);
          destruct tbl, w; cbn; try reflexivity;
          apply lookup_delete_ne; congruence ] ]
  end.

Lemma foldl_apply_delete_tasks marks w k :
  tasks (foldl apply_delete w marks) !! k
  = if decide ((TasksT, k) ∈ marks) then None else tasks w !! k.
Proof.
  revert w. induction marks as [|[tbl k'] marks IH]; intros w.
  - cbn. rewrite decide_False; [done|]. apply not_elem_of_nil.
  - solve_apply_delete TasksT k IH.
Qed.

Lemma foldl_apply_delete_history marks w k :
  history (foldl apply_delete w marks) !! k
  = if decide ((HistoryT, k) ∈ marks) then None else history w !! k.
Proof.
  revert w. induction marks as [|[tbl k'] marks IH]; intros w.
  - cbn. rewrite decide_False; [done|]. apply not_elem_of_nil.
  - solve_apply_delete HistoryT k IH.
Qed.

Lemma foldl_apply_delete_metrics marks w k :
  metrics (foldl apply_delete w marks) !! k
  = if decide ((MetricsT, k) ∈ marks) then None else metrics w !! k.
Proof.
  revert w. induction marks as [|[tbl k'] marks IH]; intros w.
  - cbn. rewrite decide_False; [done|]. apply not_elem_of_nil.
  - solve_apply_delete MetricsT k IH.
Qed.










(** ** Further properties of the worker task *)

(** X1. A delivery writes the row of its own job and nothing else: the
    rows of the other jobs, the History and Metrics tables and the files
    (the uploaded document included) are left as they were, however the
    run ends. *)
Theorem delivery_touches_only_its_job env request_id task_id query file_path w :
  let w' := (analyze_financial_document_task env request_id task_id query file_path w).2 in
  (∀ other, other ≠ task_id → tasks w' !! other = tasks w !! other) ∧
  history w' = history w ∧ metrics w' = metrics w ∧ files w' = files w.
Proof.
  destruct w as [ts hs ms fs un tr dl cr ud er eq tc].
  unfold analyze_financial_document_task, try_finally, try_except, bind,
    SessionLocal, modify, load_task_record, run_crew.
  cbn. destruct (ts !! task_id) as [t|] eqn:Hload; cbn.
  - destruct (run_crew_at env er query file_path); cbn;
      (split; [intros other Hne; by rewrite ?lookup_insert_ne by done|done]).
  - done.
Qed.

(** X2. When the clock does not run backwards, a run that ends (completed
    or failed) leaves [started_at] no later than [completed_at], and
    [duration_seconds] is at least the time between the two: it is taken
    from a later reading of the clock than [completed_at]. *)
Theorem finished_run_timestamps env request_id task_id query file_path w t :
  tasks w !! task_id = Some t →
  run_crew_at env (engine_runs w) query file_path ≠ Overruns →
  (utcnow_at env (clock_reads w) ≤ utcnow_at env (S (clock_reads w)))%Z →
  (utcnow_at env (S (clock_reads w)) ≤ utcnow_at env (S (S (clock_reads w))))%Z →
  ∃ o w' row s c d,
    analyze_financial_document_task env request_id task_id query file_path w = (o, w') ∧
    tasks w' !! task_id = Some row ∧
    AnalysisTask.started_at row = Some s ∧
    AnalysisTask.completed_at row = Some c ∧
    AnalysisTask.duration_seconds row = Some d ∧
    (s ≤ c)%Z ∧ (total_seconds (c - s) <= d)%Q.
Proof.
  intros Hload Hends H01 H12.
  destruct (run_present env request_id _ query file_path _ _ Hload)
    as (o & w' & final & evs & Hrun & Htasks & _ & _ & Hcase).
  exists o, w', final. do 3 eexists.
  split; [exact Hrun|]. split; [by rewrite Htasks, lookup_insert_eq|].
  destruct (run_crew_at env (engine_runs w) query file_path); [| |done];
    destruct Hcase as (_ & -> & _); destruct t; cbn;
    (repeat apply conj; [reflexivity..|done|]);
    unfold Qle, total_seconds; cbn; lia.
Qed.

Lemma finished_run_timestamps_witness :
  let env := env_with (Returns "analysis") (inr "msg-1") in
  let w := world_with job_pending in
  tasks w !! "job-1" = Some job_pending ∧
  ∃ o w' row s c d,
    deliver env w = (o, w') ∧
    tasks w' !! "job-1" = Some row ∧
    AnalysisTask.started_at row = Some s ∧
    AnalysisTask.completed_at row = Some c ∧
    AnalysisTask.duration_seconds row = Some d ∧
    (s ≤ c)%Z ∧ (total_seconds (c - s) <= d)%Q.
Proof.
  intros env w.
  assert (Hload : tasks w !! "job-1" = Some job_pending) by (vm_compute; reflexivity).
  split; [exact Hload|].
  apply (finished_run_timestamps env "msg-1" "job-1" "summarize"
           "data/financial_document_f0e1.pdf" w job_pending Hload).
  - discriminate.
  - vm_compute. discriminate.
  - vm_compute. discriminate.
Defined.

(** ** cleanup_temp_files *)

(** X3. [cleanup_temp_files] never raises. Afterwards the file is gone
    unless its removal fails, in which case the files are as before; no
    other path and no table is touched. *)
Theorem cleanup_temp_files_never_raises file_path w :
  ∃ w', cleanup_temp_files file_path w = (Normal tt, w') ∧
        (file_path ∉ undeletable w → files w' !! file_path = None) ∧
        (file_path ∈ undeletable w → files w' = files w) ∧
        (∀ p, p ≠ file_path → files w' !! p = files w !! p) ∧
        tasks w' = tasks w ∧ history w' = history w ∧ metrics w' = metrics w.
Proof.
  destruct w as [ts hs ms fs un tr dl cr ud er eq tc].
  unfold cleanup_temp_files, try_except, bind, os_path_exists, os_remove. cbn.
  destruct (fs !! file_path) as [data|] eqn:Hfile; cbn.
  - destruct (decide (file_path ∈ un)) as [Hun|Hun]; cbn.
    + eexists. split; [reflexivity|]. cbn. by repeat split.
    + rewrite Hfile. cbn. eexists. split; [reflexivity|]. cbn.
      repeat split; [by rewrite lookup_delete_eq|done|].
      intros p Hp. by rewrite lookup_delete_ne.
  - eexists. split; [reflexivity|]. cbn. by repeat split.
Qed.

(** ** Further properties of the submission *)

Lemma post_analyze_success env file query w celery_id :
  let file_path := "data/financial_document_" +:+ uuid4_at env (uuid_draws w) +:+ ".pdf" in
  let task_id := uuid4_at env (S (uuid_draws w)) in
  let history_id := uuid4_at env (S (S (uuid_draws w))) in
  let row := AnalysisTask.mk (filename file) (Some file_path) (strip query) "pending"
               None None (utcnow_at env (clock_reads w)) None None None
               (Some celery_id) in
  let hrow := UserAnalysisHistory.mk None task_id (filename file) None None
                "investment" None (utcnow_at env (S (clock_reads w))) in
  query ≠ "" →
  tasks w !! task_id = None →
  history w !! history_id = None →
  delay_at env (enqueues w) = inr celery_id →
  ∃ w', post_analyze env (Some file) (Some query) w
          = (Normal (Queued task_id celery_id (filename file)), w') ∧
        tasks w' = <[task_id:=row]> (tasks w) ∧
        history w' = <[history_id:=hrow]> (history w) ∧
        files w' = <[file_path:=content file]> (files w) ∧
        metrics w' = metrics w ∧
        engine_runs w' = engine_runs w ∧
        clock_reads w' = S (S (clock_reads w)).
Proof.
  intros file_path task_id history_id row hrow Hquery Htask Hhistory Hdelay.
  destruct w. run_submission.
  rewrite decide_False by done. cbn.
  subst task_id history_id. rewrite Htask. cbn. rewrite Hdelay. cbn.
  unfold db_add_history. cbn. rewrite Hhistory. cbn.
  eexists. split; [reflexivity|]. cbn.
  rewrite insert_insert_eq. repeat apply conj; reflexivity.
Qed.

(** X4. An accepted submission stores the uploaded bytes under the path
    it records in the new job, and writes one History record that refers
    to the new job and carries the document's name; the Metrics table is
    not written. *)
Theorem submission_stores_document_and_history env file query w celery_id :
  let file_path := "data/financial_document_" +:+ uuid4_at env (uuid_draws w) +:+ ".pdf" in
  let task_id := uuid4_at env (S (uuid_draws w)) in
  let history_id := uuid4_at env (S (S (uuid_draws w))) in
  query ≠ "" →
  tasks w !! task_id = None →
  history w !! history_id = None →
  delay_at env (enqueues w) = inr celery_id →
  ∃ w' row hrow,
    post_analyze env (Some file) (Some query) w
    = (Normal (Queued task_id celery_id (filename file)), w') ∧
    tasks w' !! task_id = Some row ∧
    AnalysisTask.file_path row = Some file_path ∧
    AnalysisTask.file_name row = filename file ∧
    files w' !! file_path = Some (content file) ∧
    history w' = <[history_id:=hrow]> (history w) ∧
    UserAnalysisHistory.analysis_task_id hrow = task_id ∧
    UserAnalysisHistory.document_name hrow = filename file ∧
    metrics w' = metrics w.
Proof.
  intros file_path task_id history_id Hquery Htask Hhistory Hdelay.
  destruct (post_analyze_success env file query w celery_id Hquery Htask Hhistory Hdelay)
    as (w' & Hrun & Htasks & Hhist & Hfiles & Hmetrics & _).
  exists w'. do 2 eexists. split; [exact Hrun|].
  split; [by rewrite Htasks, lookup_insert_eq|].
  split; [reflexivity|]. split; [reflexivity|].
  split; [by rewrite Hfiles, lookup_insert_eq|].
  split; [exact Hhist|]. by repeat split.
Qed.

Lemma submission_stores_document_and_history_witness :
  let env := env_with (Returns "analysis") (inr "msg-1") in
  let w := empty_world in
  "summarize" ≠ "" ∧
  tasks w !! "a1b2" = None ∧
  history w !! "c3d4" = None ∧
  delay_at env (enqueues w) = inr "msg-1" ∧
  ∃ w' row hrow,
    post_analyze env (Some report) (Some "summarize") w
    = (Normal (Queued "a1b2" "msg-1" (filename report)), w') ∧
    tasks w' !! "a1b2" = Some row ∧
    AnalysisTask.file_path row = Some "data/financial_document_f0e1.pdf" ∧
    AnalysisTask.file_name row = filename report ∧
    files w' !! "data/financial_document_f0e1.pdf" = Some (content report) ∧
    history w' = <[ "c3d4" := hrow ]> (history w) ∧
    UserAnalysisHistory.analysis_task_id hrow = "a1b2" ∧
    UserAnalysisHistory.document_name hrow = filename report ∧
    metrics w' = metrics w.
Proof.
  intros env w.
  assert (Hquery : "summarize" ≠ "") by discriminate.
  assert (Htask : tasks w !! "a1b2" = None) by (vm_compute; reflexivity).
  assert (Hhistory : history w !! "c3d4" = None) by (vm_compute; reflexivity).
  assert (Hdelay : delay_at env (enqueues w) = inr "msg-1") by reflexivity.
  split; [exact Hquery|]. split; [exact Htask|]. split; [exact Hhistory|].
  split; [exact Hdelay|].
  exact (submission_stores_document_and_history
           env report "summarize" w "msg-1" Hquery Htask Hhistory Hdelay).
Defined.





(** X6. When the enqueue step fails, the document that was uploaded stays
    on disk under the path the pending job records, and nothing is
    enqueued: the submission path removes no file. *)
Theorem enqueue_failure_keeps_document env file query w e :
  let file_path := "data/financial_document_" +:+ uuid4_at env (uuid_draws w) +:+ ".pdf" in
  let task_id := uuid4_at env (S (uuid_draws w)) in
  tasks w !! task_id = None →
  delay_at env (enqueues w) = inl e →
  ∃ o w' row,
    post_analyze env (Some file) query w = (o, w') ∧
    tasks w' !! task_id = Some row ∧
    AnalysisTask.file_path row = Some file_path ∧
    files w' = <[file_path:=content file]> (files w) ∧
    ∀ ev, ev ∈ trace w' → ev ∈ trace w ∨ ev = EvCommit task_id row.
Proof.
  intros file_path task_id Htask Hdelay. subst task_id file_path.
  destruct w. destruct query as [q|]; run_submission.
  - destruct (decide (q = "")); cbn; rewrite Htask; cbn; rewrite Hdelay; cbn;
      (eexists _, _, _; split; [reflexivity|]; cbn;
       split; [by rewrite lookup_insert_eq|];
       split; [reflexivity|]; split; [reflexivity|];
       intros ev [?|[->|[]%not_elem_of_nil]%elem_of_cons]%elem_of_app; auto).
  - rewrite Htask. cbn. rewrite Hdelay. cbn.
    eexists _, _, _. split; [reflexivity|]. cbn.
    split; [by rewrite lookup_insert_eq|].
    split; [reflexivity|]. split; [reflexivity|].
    intros ev [?|[->|[]%not_elem_of_nil]%elem_of_cons]%elem_of_app; auto.
Qed.

Lemma enqueue_failure_keeps_document_witness :
  let env := env_with (Returns "analysis") (inl (PyError "broker unreachable" "")) in
  let w := empty_world in
  tasks w !! "a1b2" = None ∧
  delay_at env (enqueues w) = inl (PyError "broker unreachable" "") ∧
  ∃ o w' row,
    post_analyze env (Some report) (Some "summarize") w = (o, w') ∧
    tasks w' !! "a1b2" = Some row ∧
    AnalysisTask.file_path row = Some "data/financial_document_f0e1.pdf" ∧
    files w' = <[ "data/financial_document_f0e1.pdf" := content report ]> (files w) ∧
    ∀ ev, ev ∈ trace w' → ev ∈ trace w ∨ ev = EvCommit "a1b2" row.
Proof.
  intros env w.
  assert (Htask : tasks w !! "a1b2" = None) by (vm_compute; reflexivity).
  assert (Hdelay : delay_at env (enqueues w) = inl (PyError "broker unreachable" ""))
    by reflexivity.
  split; [exact Htask|]. split; [exact Hdelay|].
  exact (enqueue_failure_keeps_document
           env report (Some "summarize") w (PyError "broker unreachable" "")
           Htask Hdelay).
Defined.

(** ** The status endpoints, alone and after a submission and a run *)

Lemma get_task_result_found task_id w t :
  tasks w !! task_id = Some t →
  ∃ w', get_task_result task_id w
        = (Normal
             (if decide (AnalysisTask.status t = "pending" ∨
                         AnalysisTask.status t = "processing")
              then StillProcessing task_id (AnalysisTask.status t)
              else if decide (AnalysisTask.status t = "failed")
              then FailedResult task_id (AnalysisTask.error_message t)
              else CompletedResult task_id (AnalysisTask.file_name t)
                     (AnalysisTask.query t) (AnalysisTask.analysis_result t)
                     (AnalysisTask.completed_at t)
                     (AnalysisTask.duration_seconds t)), w') ∧
        tasks w' = tasks w.
Proof.
  intros Hload. destruct w.
  unfold get_task_result, try_finally, bind, SessionLocal, db_close, modify,
    load_task_record.
  cbn in *. rewrite Hload. cbn.
  repeat case_decide; cbn; eexists; (split; [reflexivity|done]).
Qed.

(** X7. For an id that is not in the store both status endpoints answer
    404 "Task <id> not found", and the tables and files are left as they
    were. *)
Theorem status_queries_unknown_id backend task_id w :
  tasks w !! task_id = None →
  ∃ w1 w2,
    get_task_status backend task_id w
    = (Raised (HTTPException 404 ("Task " +:+ task_id +:+ " not found")), w1) ∧
    get_task_result task_id w
    = (Raised (HTTPException 404 ("Task " +:+ task_id +:+ " not found")), w2) ∧
    tasks w1 = tasks w ∧ tasks w2 = tasks w ∧
    files w1 = files w ∧ files w2 = files w.
Proof.
  intros Hnone. destruct w.
  unfold get_task_status, get_task_result, try_finally, bind, SessionLocal,
    db_close, modify, load_task_record, raise.
  cbn in *. rewrite Hnone. cbn.
  eexists _, _. repeat apply conj; reflexivity.
Qed.

Lemma status_queries_unknown_id_witness :
  let w := world_with job_pending in
  tasks w !! "job-2" = None ∧
  ∃ w1 w2,
    get_task_status (λ _, mkAsyncResult "PENDING" None) "job-2" w
    = (Raised (HTTPException 404 ("Task " +:+ "job-2" +:+ " not found")), w1) ∧
    get_task_result "job-2" w
    = (Raised (HTTPException 404 ("Task " +:+ "job-2" +:+ " not found")), w2) ∧
    tasks w1 = tasks w ∧ tasks w2 = tasks w ∧
    files w1 = files w ∧ files w2 = files w.
Proof.
  intros w.
  assert (Hnone : tasks w !! "job-2" = None) by (vm_compute; reflexivity).
  split; [exact Hnone|].
  exact (status_queries_unknown_id (λ _, mkAsyncResult "PENDING" None) "job-2" w Hnone).
Defined.



(** X9. When the engine raises on the enqueued message, the result
    endpoint afterwards answers failed with the text the worker recorded:
    the exception's message, a newline and its traceback; no result is
    disclosed. *)
Theorem submit_run_then_result_is_failed env file query w celery_id e :
  let file_path := "data/financial_document_" +:+ uuid4_at env (uuid_draws w) +:+ ".pdf" in
  let task_id := uuid4_at env (S (uuid_draws w)) in
  let history_id := uuid4_at env (S (S (uuid_draws w))) in
  query ≠ "" →
  tasks w !! task_id = None →
  history w !! history_id = None →
  delay_at env (enqueues w) = inr celery_id →
  run_crew_at env (engine_runs w) (strip query) file_path = Raises e →
  ∃ w1 w2 w3,
    post_analyze env (Some file) (Some query) w
    = (Normal (Queued task_id celery_id (filename file)), w1) ∧
    analyze_financial_document_task env celery_id task_id (strip query) file_path w1
    = (Normal (RetFailed task_id (str e)), w2) ∧
    get_task_result task_id w2
    = (Normal (FailedResult task_id (Some (str e +:+ nl +:+ format_exc e))), w3).
Proof.
  intros file_path task_id history_id Hquery Htask Hhistory Hdelay Hengine.
  destruct (post_analyze_success env file query w celery_id Hquery Htask Hhistory Hdelay)
    as (w1 & Hsubmit & Htasks1 & _ & _ & _ & Hruns & _).
  fold file_path task_id in Htasks1, Hsubmit.
  set (row := AnalysisTask.mk (filename file) (Some file_path) (strip query) "pending"
                None None (utcnow_at env (clock_reads w)) None None None
                (Some celery_id)) in *.
  assert (Hload : tasks w1 !! task_id = Some row)
    by (by rewrite Htasks1, lookup_insert_eq).
  rewrite <- Hruns in Hengine.
  destruct (run_raises env celery_id task_id (strip query) file_path w1 row e
              Hload Hengine) as (w2 & Hrun & Htasks2 & _).
  cbv zeta in Htasks2.
  match type of Htasks2 with
  | _ = <[_:=?final]> _ =>
      assert (Hload2 : tasks w2 !! task_id = Some final)
        by (by rewrite Htasks2, lookup_insert_eq);
      destruct (get_task_result_found task_id w2 final Hload2) as (w3 & Hdone & _)
  end.
  exists w1, w2, w3.
  split; [exact Hsubmit|]. split; [exact Hrun|]. exact Hdone.
Qed.

Lemma submit_run_then_result_is_failed_witness :
  let env := env_with (Raises boom) (inr "msg-1") in
  let w := empty_world in
  "summarize" ≠ "" ∧
  tasks w !! "a1b2" = None ∧
  history w !! "c3d4" = None ∧
  delay_at env (enqueues w) = inr "msg-1" ∧
  run_crew_at env (engine_runs w) (strip "summarize")
    "data/financial_document_f0e1.pdf" = Raises boom ∧
  ∃ w1 w2 w3,
    post_analyze env (Some report) (Some "summarize") w
    = (Normal (Queued "a1b2" "msg-1" (filename report)), w1) ∧
    analyze_financial_document_task env "msg-1" "a1b2" (strip "summarize")
      "data/financial_document_f0e1.pdf" w1
    = (Normal (RetFailed "a1b2" (str boom)), w2) ∧
    get_task_result "a1b2" w2
    = (Normal (FailedResult "a1b2" (Some (str boom +:+ nl +:+ format_exc boom))), w3).
Proof.
  intros env w.
  assert (Hquery : "summarize" ≠ "") by discriminate.
  assert (Htask : tasks w !! "a1b2" = None) by (vm_compute; reflexivity).
  assert (Hhistory : history w !! "c3d4" = None) by (vm_compute; reflexivity).
  assert (Hdelay : delay_at env (enqueues w) = inr "msg-1") by reflexivity.
  assert (Hengine : run_crew_at env (engine_runs w) (strip "summarize")
                      "data/financial_document_f0e1.pdf" = Raises boom)
    by reflexivity.
  split; [exact Hquery|]. split; [exact Htask|]. split; [exact Hhistory|].
  split; [exact Hdelay|]. split; [exact Hengine|].
  exact (submit_run_then_result_is_failed
           env report "summarize" w "msg-1" boom
           Hquery Htask Hhistory Hdelay Hengine).
Defined.



(** ** Further properties of the listing *)











(** ** Further properties of the retention sweep *)






(** ** cleanup_failed_tasks *)

Lemma cleanup_failed_task_run w fs marks evs task :
  ∃ fs' document,
    cleanup_failed_task task (session_state w fs marks evs)
    = (Normal tt, session_state w fs' (marks ++ [(TasksT, task.1)])
                                (evs ++ document ++ [EvDelete TasksT task.1])) ∧
    document_step (undeletable w) task.2 fs fs' document.
Proof.
  unfold cleanup_failed_task.
  destruct (AnalysisTask.file_path task.2) as [p|] eqn:Hpath.
  - destruct (decide (p = "")) as [->|Hp].
    + exists fs, []. split; [reflexivity|].
      left. repeat split. intros q Hq ? ?. rewrite Hpath in Hq. by injection Hq as <-.
    + unfold bind, os_path_exists. cbn.
      destruct (fs !! p) as [data|] eqn:Hfile; cbn.
      * unfold try_except, os_remove. cbn.
        destruct (decide (p ∈ undeletable w)) as [Hun|Hun]; cbn.
        -- exists fs, []. split; [reflexivity|].
           left. repeat split. intros q Hq ? ?. rewrite Hpath in Hq.
           by injection Hq as <-.
        -- rewrite Hfile. cbn. exists (delete p fs), [EvRemove p]. split.
           ++ unfold session_state, db_delete, modify. cbn.
              by rewrite <- !app_assoc.
           ++ right. by exists p.
      * exists fs, []. split; [reflexivity|].
        left. repeat split. intros q Hq ? ?. rewrite Hpath in Hq.
        by injection Hq as <-.
  - exists fs, []. split; [reflexivity|].
    left. repeat split. intros q Hq. by rewrite Hpath in Hq.
Qed.

Lemma cleanup_failed_loop w failed fs marks evs :
  ∃ fs' evs',
    for_each failed cleanup_failed_task (session_state w fs marks evs)
    = (Normal tt, session_state w fs' (marks ++ (pair TasksT <$> failed.*1)) evs') ∧
    (∀ p, fs !! p = None → fs' !! p = None) ∧
    (∀ task p, task ∈ failed → AnalysisTask.file_path task.2 = Some p →
               p ≠ "" → p ∉ undeletable w → fs' !! p = None) ∧
    (∀ p, (∀ task, task ∈ failed → AnalysisTask.file_path task.2 ≠ Some p) →
          fs' !! p = fs !! p).
Proof.
  revert fs marks evs. induction failed as [|task failed IH]; intros fs marks evs.
  - exists fs, evs. cbn. rewrite app_nil_r.
    split; [done|]. split; [done|].
    split; [|done]. intros task p Hin. by apply not_elem_of_nil in Hin.
  - destruct (cleanup_failed_task_run w fs marks evs task)
      as (fs1 & document & Hrun & Hdoc).
    destruct (IH fs1 (marks ++ [(TasksT, task.1)])
                 (evs ++ document ++ [EvDelete TasksT task.1]))
      as (fs' & evs' & Hloop & Hmono & Hgone & Hkept).
    exists fs', evs'.
    assert (Hmono1 : ∀ p, fs !! p = None → fs1 !! p = None).
    { intros p Hp. destruct Hdoc as [(_ & -> & _)|(q & _ & _ & ->)]; [done|].
      rewrite lookup_delete. by case_decide. }
    split; [|split; [|split]].
    + cbn. unfold bind. rewrite Hrun, Hloop, <- !app_assoc. reflexivity.
    + auto.
    + intros task' p [->|Hin]%elem_of_cons Hp Hne Hun; [|by eapply Hgone].
      apply Hmono. destruct Hdoc as [(_ & -> & Hnone)|(q & Hq & _ & ->)]; [eauto|].
      rewrite Hp in Hq. injection Hq as <-. apply lookup_delete_eq.
    + intros p Hp. rewrite Hkept by (intros; apply Hp; by right).
      destruct Hdoc as [(_ & -> & _)|(q & Hq & _ & ->)]; [done|].
      apply lookup_delete_ne. intros ->. by apply (Hp task); [left|].
Qed.

Lemma commit_close_session w fs marks evs :
  ∃ w', (db_commit ;; db_close) (session_state w fs marks evs) = (Normal tt, w') ∧
        tasks w' = tasks (foldl apply_delete (session_state w fs marks evs) marks) ∧
        history w' = history (foldl apply_delete (session_state w fs marks evs) marks) ∧
        metrics w' = metrics (foldl apply_delete (session_state w fs marks evs) marks) ∧
        files w' = fs.
Proof.
  unfold bind, db_commit, db_close, modify. cbn.
  eexists. split; [reflexivity|].
  destruct (foldl_apply_delete_frame marks (session_state w fs marks evs)) as [Hf Ht].
  destruct (foldl apply_delete (session_state w fs marks evs) marks).
  cbn in *. by subst.
Qed.

Lemma cleanup_failed_tasks_run w :
  let failed := filter (λ r, AnalysisTask.status r.2 = "failed")
                       (map_to_list (tasks w)) in
  ∃ w',
    cleanup_failed_tasks w = (Normal tt, w') ∧
    (∀ id, tasks w' !! id
           = t ← tasks w !! id;
             if decide (AnalysisTask.status t = "failed") then None else Some t) ∧
    history w' = history w ∧ metrics w' = metrics w ∧
    (∀ task p, task ∈ failed → AnalysisTask.file_path task.2 = Some p →
               p ≠ "" → p ∉ undeletable w → files w' !! p = None) ∧
    (∀ p, (∀ task, task ∈ failed → AnalysisTask.file_path task.2 ≠ Some p) →
          files w' !! p = files w !! p).
Proof.
  intros failed.
  assert (Hfailed : ∀ id, id ∈ failed.*1 ↔
            ∃ t, tasks w !! id = Some t ∧ AnalysisTask.status t = "failed").
  { intros id. rewrite list_elem_of_fmap. split.
    - intros ([id' t] & -> & [Hst Hin%elem_of_map_to_list]%list_elem_of_filter).
      eauto.
    - intros (t & Hid & Hst). exists (id, t). split; [done|].
      apply list_elem_of_filter. split; [done|]. by apply elem_of_map_to_list. }
  assert (Hstart : cleanup_failed_tasks w
            = match failed with
              | [] => (Normal tt, session_state w (files w) [] (trace w))
              | _ => (for_each failed cleanup_failed_task ;; db_commit ;; db_close)
                       (session_state w (files w) [] (trace w))
              end).
  { subst failed. destruct w.
    unfold cleanup_failed_tasks, bind, SessionLocal, modify, query_failed_tasks,
      session_state. cbn.
    by destruct (filter _ _). }
  rewrite Hstart.
  destruct (cleanup_failed_loop w failed (files w) [] (trace w))
    as (fs' & evs' & Hloop & _ & Hgone & Hkept).
  destruct failed as [|task failed'] eqn:Hlist.
  - exists (session_state w (files w) [] (trace w)).
    split; [done|]. split.
    { intros id. cbn.
      destruct (tasks w !! id) as [t|] eqn:Hid; [|done]. cbn.
      case_decide as Hst; [|done]. exfalso.
      apply (not_elem_of_nil id).
      change [] with ([] : list (string * AnalysisTask.t)).*1.
      apply Hfailed. eauto. }
    split; [done|]. split; [done|]. split; [|done].
    intros task0 p Hin. by apply not_elem_of_nil in Hin.
  - rewrite <- Hlist in *. clear Hlist failed'.
    destruct (commit_close_session w fs' (pair TasksT <$> failed.*1) evs')
      as (w' & Hcommit & Ht & Hh & Hm & Hf).
    exists w'. split.
    { unfold bind at 1. rewrite Hloop. exact Hcommit. }
    split; [|split; [|split; [|split]]].
    + intros id. rewrite Ht, foldl_apply_delete_tasks. cbn.
      destruct (tasks w !! id) as [t|] eqn:Hid; cbn.
      * destruct (decide (AnalysisTask.status t = "failed")) as [Hst|Hst].
        -- rewrite decide_True; [done|]. apply list_elem_of_fmap_2, Hfailed. eauto.
        -- rewrite decide_False; [done|].
           intros (id' & [= <-] & (t' & Hid' & Hst')%Hfailed)%list_elem_of_fmap.
           congruence.
      * by case_decide.
    + apply map_eq. intros id. rewrite Hh, foldl_apply_delete_history. cbn.
      rewrite decide_False; [done|].
      by intros (id' & [=] & _)%list_elem_of_fmap.
    + apply map_eq. intros id. rewrite Hm, foldl_apply_delete_metrics. cbn.
      rewrite decide_False; [done|].
      by intros (id' & [=] & _)%list_elem_of_fmap.
    + intros task0 p Hin Hp Hne Hun. rewrite Hf. by eapply Hgone.
    + intros p Hp. rewrite Hf. by apply Hkept.
Qed.

(** X17. [cleanup_failed_tasks] deletes exactly the failed jobs, whatever
    their age; the document of a deleted job is gone afterwards unless it
    cannot be removed, and no other document is touched. *)
Theorem cleanup_failed_tasks_deletes_failed_jobs w :
  ∃ w', cleanup_failed_tasks w = (Normal tt, w') ∧
        (∀ id, tasks w' !! id
               = t ← tasks w !! id;
                 if decide (AnalysisTask.status t = "failed") then None else Some t) ∧
        (∀ id t p, tasks w !! id = Some t → AnalysisTask.status t = "failed" →
                   AnalysisTask.file_path t = Some p → p ≠ "" →
                   p ∉ undeletable w → files w' !! p = None) ∧
        (∀ p, (∀ id t, tasks w !! id = Some t → AnalysisTask.status t = "failed" →
                       AnalysisTask.file_path t ≠ Some p) →
              files w' !! p = files w !! p).
Proof.
  destruct (cleanup_failed_tasks_run w)
    as (w' & Hrun & Htasks & _ & _ & Hgone & Hkept).
  exists w'. split; [exact Hrun|]. split; [exact Htasks|]. split.
  - intros id t p Hid Hst Hp Hne Hun. apply (Hgone (id, t)); [|done..].
    apply list_elem_of_filter. split; [done|]. by apply elem_of_map_to_list.
  - intros p Hp. apply Hkept.
    intros [id t] [Hst Hin%elem_of_map_to_list]%list_elem_of_filter.
    by apply (Hp id t).
Qed.

(** X18. Unlike the retention sweep, [cleanup_failed_tasks] deletes no
    History and no Metrics record: the records of a failed job stay in
    their tables after the job itself is gone. *)
Theorem cleanup_failed_tasks_leaves_records w id h t :
  history w !! id = Some h →
  tasks w !! UserAnalysisHistory.analysis_task_id h = Some t →
  AnalysisTask.status t = "failed" →
  ∃ w', cleanup_failed_tasks w = (Normal tt, w') ∧
        tasks w' !! UserAnalysisHistory.analysis_task_id h = None ∧
        history w' !! id = Some h ∧
        history w' = history w ∧ metrics w' = metrics w.
Proof.
  intros Hid Ht Hst.
  destruct (cleanup_failed_tasks_run w)
    as (w' & Hrun & Htasks & Hhistory & Hmetrics & _).
  exists w'. split; [exact Hrun|]. split.
  - rewrite Htasks, Ht. cbn. by rewrite decide_True.
  - by rewrite Hhistory.
Qed.

Lemma cleanup_failed_tasks_leaves_records_witness :
  let w := sweep_world in
  let h := UserAnalysisHistory.mk None "job-f" "report.pdf" None None
             "investment" None 0%Z in
  let t := ended "failed" "data/f.pdf" 0%Z in
  history w !! "h-f" = Some h ∧
  tasks w !! UserAnalysisHistory.analysis_task_id h = Some t ∧
  AnalysisTask.status t = "failed" ∧
  ∃ w', cleanup_failed_tasks w = (Normal tt, w') ∧
        tasks w' !! UserAnalysisHistory.analysis_task_id h = None ∧
        history w' !! "h-f" = Some h ∧
        history w' = history w ∧ metrics w' = metrics w.
Proof.
  intros w h t.
  assert (Hid : history w !! "h-f" = Some h) by (vm_compute; reflexivity).
  assert (Ht : tasks w !! UserAnalysisHistory.analysis_task_id h = Some t)
    by (vm_compute; reflexivity).
  assert (Hst : AnalysisTask.status t = "failed") by reflexivity.
  split; [exact Hid|]. split; [exact Ht|]. split; [exact Hst|].
  exact (cleanup_failed_tasks_leaves_records w "h-f" h t Hid Ht Hst).
Defined.






(** ** show_task_stats *)

Lemma status_counts_le (rows : list (string * AnalysisTask.t)) :
  let n s := length (filter (λ r, AnalysisTask.status r.2 = s) rows) in
  (n "pending" + n "processing" + n "completed" + n "failed" ≤ length rows)%nat ∧
  (Forall (λ r, AnalysisTask.status r.2 ∈
                ["pending"; "processing"; "completed"; "failed"]) rows →
   (n "pending" + n "processing" + n "completed" + n "failed" = length rows)%nat).
Proof.
  cbv zeta. induction rows as [|r rows [IHle IHeq]].
  - split; [done|]. done.
  - rewrite !filter_cons. split.
    + repeat case_decide; cbn; try lia; congruence.
    + intros [Hr Hrows]%Forall_cons. specialize (IHeq Hrows).
      rewrite !elem_of_cons in Hr.
      destruct Hr as [Hr|[Hr|[Hr|[Hr|Hr]]]];
        [| | | |by apply not_elem_of_nil in Hr];
        rewrite Hr; repeat case_decide; cbn; try lia; congruence.
Qed.

Lemma sum_Z_omap_tokens (rows : list (string * AnalysisMetrics.t)) (a : Z) :
  foldl Z.add a
    (omap (λ m, match AnalysisMetrics.tokens_used m.2 with
                | Some n => if decide (n = 0%Z) then None else Some n
                | None => None
                end) rows)
  = foldl Z.add a ((λ m, default 0%Z (AnalysisMetrics.tokens_used m.2)) <$> rows).
Proof.
  revert a. induction rows as [|m rows IH]; intros a; [done|]. cbn.
  destruct (AnalysisMetrics.tokens_used m.2) as [n|]; cbn.
  - case_decide as Hn; cbn; [|apply IH]. rewrite Hn, Z.add_0_r. apply IH.
  - rewrite Z.add_0_r. apply IH.
Qed.

Lemma omap_none {A B} (f : A → option B) (l : list A) :
  (∀ x, x ∈ l → f x = None) → omap f l = [].
Proof.
  induction l as [|x l IH]; intros Hl; [done|]. cbn.
  rewrite (Hl x) by (by left). apply IH. intros y Hy. apply Hl. by right.
Qed.

(** X21. In the statistics the four per-state counts never exceed the
    total and add up to it when every job is in one of the four states;
    the token total is the sum over all Metrics records, a missing count
    taken as 0; the average duration is 0 when no completed job has a
    duration; the store is not changed. *)
Theorem show_task_stats_figures w :
  ∃ st w',
    show_task_stats w = (Normal st, w') ∧
    (pending_tasks st + processing_tasks st + completed_tasks st + failed_tasks st
     ≤ total_tasks st)%nat ∧
    ((∀ id t, tasks w !! id = Some t →
        AnalysisTask.status t ∈ ["pending"; "processing"; "completed"; "failed"]) →
     (pending_tasks st + processing_tasks st + completed_tasks st + failed_tasks st
      = total_tasks st)%nat) ∧
    total_tokens st
    = sum_Z ((λ m, default 0%Z (AnalysisMetrics.tokens_used m.2))
               <$> map_to_list (metrics w)) ∧
    ((∀ id t, tasks w !! id = Some t → AnalysisTask.status t = "completed" →
        AnalysisTask.duration_seconds t = None) →
     avg_duration st = 0%Q) ∧
    history_count st = size (history w) ∧ metrics_count st = size (metrics w) ∧
    tasks w' = tasks w ∧ history w' = history w ∧ metrics w' = metrics w.
Proof.
  unfold show_task_stats. do 2 eexists. split; [reflexivity|]. cbn.
  destruct (status_counts_le (map_to_list (tasks w))) as [Hle Heq].
  unfold count_status. rewrite <- length_map_to_list.
  split; [exact Hle|]. split.
  { intros Hknown. apply Heq. apply Forall_forall.
    intros [id t] Hin%elem_of_map_to_list. by apply (Hknown id t). }
  split; [apply sum_Z_omap_tokens|]. split.
  { intros Hnone.
    assert (Hempty : omap (λ r : string * AnalysisTask.t,
                if decide (AnalysisTask.status r.2 = "completed")
                then AnalysisTask.duration_seconds r.2 else None)
              (map_to_list (tasks w)) = []).
    { apply omap_none. intros [id t] Hin%elem_of_map_to_list. cbn.
      case_decide as Hst; [|done]. by apply (Hnone id t). }
    by rewrite Hempty. }
  destruct w; done.
Qed.

(** ** Documents that cannot be removed *)




